(** * The CMS doctors-and-clinicians pipeline ([etl.py])

    A shallow embedding of [extract_cms_data] and [transform_data], with the
    properties of the pagination loop and of the two-table split.

    The pandas calls of [transform_data] are modelled column-major, the way a
    frame stores its data: a frame is an index (the row labels, which are the
    positions of the records in the input list) and an ordered list of named
    columns.  Column labels may repeat, as pandas allows; the operations say
    what pandas does then. *)

From Stdlib Require Import String Ascii ZArith Arith Bool Lia List.
Import ListNotations.
Open Scope string_scope.
Open Scope list_scope.

Set Implicit Arguments.

(** ** Values, records, exceptions *)

(** A cell.  A record decoded from the JSON response holds [VNull], [VStr] or
    [VNum]; [VTime] only arises from [pd.Timestamp.utcnow()].

    [VNull] is the missing value, Python's [None] and pandas's [NaN] alike:
    [rename], [replace], [to_numeric], the selections and [drop(columns=)]
    treat them alike.  [drop_duplicates] does not, it keeps a [None] and a
    [NaN] apart; here it does not, so the model is exact for it on inputs
    whose missing identifiers are of one kind, as they are when every
    record has its identifier as a string (the empty string being the only
    missing one).  [VNum] is an integer: the float pandas makes of a number
    in a column that also has a missing value is that integer below 2^53
    only.  The theorems that depend on either point say on which inputs
    they are stated. *)
Inductive value : Type :=
| VNull
| VStr (s : string)
| VNum (n : Z)
| VTime (t : Z).

Definition value_eq_dec (a b : value) : {a = b} + {a <> b}.
Proof. decide equality; (apply string_dec || apply Z.eq_dec). Defined.

Definition value_eqb (a b : value) : bool :=
  if value_eq_dec a b then true else false.

(** A Python [dict] with string keys, in insertion order. *)
Definition record := list (string * value).

Fixpoint assoc {A : Type} (k : string) (d : list (string * A)) : option A :=
  match d with
  | [] => None
  | (k', v) :: rest => if String.eqb k k' then Some v else assoc k rest
  end.

(** [x.get(k)]: the value under [k], [None] when the key is absent. *)
Definition dict_get (k : string) (x : record) : value :=
  match assoc k x with
  | Some v => v
  | None => VNull
  end.

Inductive exn : Type :=
| KeyError (labels : list string)
| TypeError.

Inductive result (A : Type) : Type :=
| Ok (a : A)
| Raise (e : exn).

Arguments Ok {A} a.
Arguments Raise {A} e.

Definition bind {A B : Type} (m : result A) (f : A -> result B) : result B :=
  match m with
  | Ok a => f a
  | Raise e => Raise e
  end.

Notation "x <- m ;; k" := (bind m (fun x => k))
  (at level 61, m at next level, right associativity).

(** ** Configuration *)

Definition STATES_LIST : list string := ["AL"; "SD"].
Definition SPECIALTY_FILTER : list value :=
  [VStr "ORTHOPEDIC SURGERY"; VStr "DIAGNOSTIC RADIOLOGY"].
Definition CHUNK_SIZE : nat := 1000.

(** ** Extraction *)

(** One [requests.get] followed by [raise_for_status] and [json]: either the
    decoded page, or any exception, which the loop catches. *)
Inductive response : Type :=
| FetchError
| Page (data : list record).

(** [x in l] for a Python list: equality with some element. *)
Definition py_in (v : value) (l : list value) : bool :=
  existsb (value_eqb v) l.

Definition in_filter (x : record) : bool :=
  py_in (dict_get "pri_spec" x) SPECIALTY_FILTER.

Section Extract.

(** The source, as a function of the query's state and offset. *)
Variable fetch : string -> nat -> response.

(** The [while True] loop for one state.  [result] is the accumulator the
    loop extends, [log] the requests issued so far.  The loop need not end
    (a source may serve full pages for ever), so it runs on [fuel]: [None]
    is a loop that has not ended within [fuel] iterations. *)
Fixpoint paginate (fuel : nat) (state : string) (offset : nat)
    (result : list record) (log : list (string * nat))
  : option (list record * list (string * nat)) :=
  match fuel with
  | O => None
  | S fuel' =>
      let log := log ++ [(state, offset)] in
      match fetch state offset with
      | FetchError => Some (result, log)
      | Page data =>
          match data with
          | [] => Some (result, log)
          | _ :: _ =>
              let filtered := filter in_filter data in
              let result := result ++ filtered in
              let offset := offset + CHUNK_SIZE in
              if (length data <? CHUNK_SIZE)%nat
              then Some (result, log)
              else paginate fuel' state offset result log
          end
      end
  end.

(** The [for state in STATES_LIST] loop. *)
Fixpoint for_states (fuel : nat) (states : list string)
    (result : list record) (log : list (string * nat))
  : option (list record * list (string * nat)) :=
  match states with
  | [] => Some (result, log)
  | state :: rest =>
      match paginate fuel state 0 result log with
      | None => None
      | Some (result, log) => for_states fuel rest result log
      end
  end.

Definition extract_cms_data (fuel : nat)
  : option (list record * list (string * nat)) :=
  for_states fuel STATES_LIST [] [].

(** *** Vocabulary for the properties of the loop *)

(** [pages] are served for [state] from [offset] on, each a full page. *)
Definition full_pages (state : string) (offset : nat) (pages : list (list record))
  : Prop :=
  forall j p, nth_error pages j = Some p ->
    fetch state (offset + j * CHUNK_SIZE) = Page p /\ CHUNK_SIZE <= length p.

(** The records a request brought back. *)
Definition served (q : string * nat) : list record :=
  match fetch (fst q) (snd q) with
  | FetchError => []
  | Page data => data
  end.

End Extract.

(** [count] successive requests for [state], a page apart, from [offset] on. *)
Definition offsets (state : string) (offset count : nat) : list (string * nat) :=
  map (fun j => (state, offset + j * CHUNK_SIZE)) (seq 0 count).

(** ** Frames *)

Definition column := (string * list value)%type.

Record DataFrame : Type := mkFrame {
  index : list nat;
  columns : list column
}.

Definition names (df : DataFrame) : list string := map fst (columns df).

Definition has_label {A : Type} (label : string) (c : string * A) : bool :=
  String.eqb label (fst c).

Definition mem (label : string) (labels : list string) : bool :=
  existsb (String.eqb label) labels.

(** The columns carrying [label], in frame order. *)
Definition labelled (label : string) (df : DataFrame) : list column :=
  filter (has_label label) (columns df).

(** The distinct elements of [l], in order of first appearance. *)
Fixpoint unique (l : list string) : list string :=
  match l with
  | [] => []
  | k :: rest => k :: filter (fun k' => negb (String.eqb k k')) (unique rest)
  end.

Definition all_keys (raw_list : list record) : list string :=
  unique (flat_map (map fst) raw_list).

(** [pd.DataFrame(raw_list)] for a list of dicts: one row per dict, labelled
    by position; one column per key, in order of first appearance; a key a
    dict lacks gives a missing value.  The cells are the values of the
    dicts: the type pandas infers for a column is not modelled (see
    [value]). *)
Definition frame_of_records (raw_list : list record) : DataFrame :=
  {| index := seq 0 (length raw_list);
     columns := map (fun k => (k, map (dict_get k) raw_list))
                    (all_keys raw_list) |}.

(** [df.rename(columns=mapper)]: a label the mapper knows is replaced, any
    other label is kept as it is. *)
Definition renamed (mapper : list (string * string)) (label : string) : string :=
  match assoc label mapper with
  | Some label' => label'
  | None => label
  end.

Definition rename (mapper : list (string * string)) (df : DataFrame) : DataFrame :=
  {| index := index df;
     columns := map (fun c => (renamed mapper (fst c), snd c)) (columns df) |}.

(** [df.replace({old: new})]. *)
Definition replace_value (old new v : value) : value :=
  if value_eq_dec v old then new else v.

Definition replace (old new : value) (df : DataFrame) : DataFrame :=
  {| index := index df;
     columns := map (fun c => (fst c, map (replace_value old new) (snd c)))
                    (columns df) |}.

(** [df[label]]: [KeyError] for an unknown label, a series for a label that
    one column carries, a frame for a repeated label. *)
Inductive selection : Type :=
| Series (values : list value)
| Frame (cols : list column).

Definition getitem (label : string) (df : DataFrame) : result selection :=
  match labelled label df with
  | [] => Raise (KeyError [label])
  | [c] => Ok (Series (snd c))
  | cols => Ok (Frame cols)
  end.

(** [df[label] = values]: every column carrying [label] is overwritten; a new
    label is appended as the last column. *)
Definition setitem (label : string) (values : list value) (df : DataFrame)
  : DataFrame :=
  {| index := index df;
     columns :=
       if mem label (names df)
       then map (fun c => if has_label label c then (fst c, values) else c)
                (columns df)
       else columns df ++ [(label, values)] |}.

(** [df[label] = v] for a scalar [v], which is broadcast over the rows. *)
Definition setitem_scalar (label : string) (v : value) (df : DataFrame)
  : DataFrame :=
  setitem label (repeat v (length (index df))) df.

Definition missing (labels : list string) (df : DataFrame) : list string :=
  filter (fun label => negb (mem label (names df))) labels.

(** [df[labels]] for a list of labels: [KeyError] when a label is unknown;
    otherwise the columns of each label in turn, all of them for a repeated
    label. *)
Definition getitem_list (labels : list string) (df : DataFrame)
  : result DataFrame :=
  match missing labels df with
  | [] => Ok {| index := index df;
                columns := flat_map (fun label => labelled label df) labels |}
  | unknown => Raise (KeyError unknown)
  end.

(** [df.drop(columns=labels)], which raises on an unknown label. *)
Definition drop (labels : list string) (df : DataFrame) : result DataFrame :=
  match missing labels df with
  | [] => Ok {| index := index df;
                columns := filter (fun c => negb (mem (fst c) labels))
                                  (columns df) |}
  | unknown => Raise (KeyError unknown)
  end.

(** Row [i] of a list of columns. *)
Definition row_of (cols : list (list value)) (i : nat) : list value :=
  map (fun c => nth i c VNull) cols.

Definition key_eq_dec : forall a b : list value, {a = b} + {a <> b} :=
  list_eq_dec value_eq_dec.

Definition seen_before (k : list value) (seen : list (list value)) : bool :=
  if in_dec key_eq_dec k seen then true else false.

(** Which rows [drop_duplicates] keeps: those whose key no earlier row has. *)
Fixpoint first_seen (seen keys : list (list value)) : list bool :=
  match keys with
  | [] => []
  | k :: rest =>
      if seen_before k seen
      then false :: first_seen seen rest
      else true :: first_seen (k :: seen) rest
  end.

Fixpoint pick {A : Type} (mask : list bool) (l : list A) : list A :=
  match mask, l with
  | b :: mask', x :: l' => if b then x :: pick mask' l' else pick mask' l'
  | _, _ => []
  end.

(** The key of every row: its cells in the columns whose label is in
    [subset]. *)
Definition keys_of (subset : list string) (df : DataFrame) : list (list value) :=
  map (row_of (map snd (filter (fun c => mem (fst c) subset) (columns df))))
      (seq 0 (length (index df))).

(** [df.drop_duplicates(subset=subset)] with the default [keep="first"].
    The surviving rows keep their labels.  Keys are compared as cells are:
    two missing values are one key (see [value] for where pandas
    differs). *)
Definition drop_duplicates (subset : list string) (df : DataFrame)
  : result DataFrame :=
  match missing subset df with
  | [] =>
      let keep := first_seen [] (keys_of subset df) in
      Ok {| index := pick keep (index df);
            columns := map (fun c => (fst c, pick keep (snd c))) (columns df) |}
  | unknown => Raise (KeyError unknown)
  end.

(** ** Transformation *)

Definition rename_map : list (string * string) :=
  [ ("npi", "npi");
    ("ind_pac_id", "individual_pac_id");
    ("ind_enrl_id", "individual_enrollment_id");
    ("provider_last_name", "provider_last_name");
    ("provider_first_name", "provider_first_name");
    ("provider_middle_name", "provider_middle_name");
    ("suff", "provider_suffix");
    ("gndr", "gender");

    ("cred", "credential");
    ("med_sch", "medical_school_name");
    ("grd_yr", "graduation_year");
    ("pri_spec", "primary_specialty");
    ("sec_spec_1", "secondary_specialty_1");
    ("sec_spec_2", "secondary_specialty_2");
    ("sec_spec_3", "secondary_specialty_3");
    ("sec_spec_4", "secondary_specialty_4");
    ("sec_spec_all", "secondary_specialties_all");

    ("telehlth", "offers_telehealth");
    ("facility_name", "facility_name");
    ("org_pac_id", "organization_pac_id");
    ("num_org_mem", "number_of_group_members");
    ("adr_ln_1", "address_line_1");
    ("adr_ln_2", "address_line_2");
    ("ln_2_sprs", "line2_suppression_flag");
    ("citytown", "city");
    ("state", "state");
    ("zip_code", "zip_code");
    ("telephone_number", "telephone_number");
    ("ind_assgn", "individual_accepts_medicare_assignment");
    ("grp_assgn", "group_accepts_medicare_assignment");
    ("adrs_id", "address_id");
    ("record_number", "record_number");
    ("bq_load_dttm", "bq_load_dttm") ].

Definition doctor_cols : list string :=
  [ "npi";
    "individual_pac_id";
    "individual_enrollment_id";
    "provider_last_name";
    "provider_first_name";
    "provider_middle_name";
    "provider_suffix";
    "gender";
    "bq_load_dttm" ].

Section Transform.

(** How [pd.to_numeric] reads a string: the number, or [None] for a string
    that is not a numeral.  The pandas parser is not part of the program and
    is left open. *)
Variable parse_number : string -> option Z.

(** [errors="coerce"]: what cannot be read becomes a missing value. *)
Definition coerce (v : value) : value :=
  match v with
  | VNull => VNull
  | VStr s => match parse_number s with
              | Some n => VNum n
              | None => VNull
              end
  | VNum n => VNum n
  | VTime _ => VNull
  end.

(** [pd.to_numeric(arg, errors="coerce")]: a frame is not an accepted
    argument. *)
Definition to_numeric (arg : selection) : result (list value) :=
  match arg with
  | Series values => Ok (map coerce values)
  | Frame _ => Raise TypeError
  end.

(** [utcnow] is the instant [pd.Timestamp.utcnow()] returns. *)
Definition transform_data (utcnow : Z) (raw_list : list record)
  : result (DataFrame * DataFrame) :=
  let df_raw := frame_of_records raw_list in
  let df_raw := replace (VStr "") VNull (rename rename_map df_raw) in
  arg <- getitem "graduation_year" df_raw ;;
  numeric <- to_numeric arg ;;
  let df_raw := setitem "graduation_year" numeric df_raw in
  arg <- getitem "number_of_group_members" df_raw ;;
  numeric <- to_numeric arg ;;
  let df_raw := setitem "number_of_group_members" numeric df_raw in
  let df_raw := setitem_scalar "bq_load_dttm" (VTime utcnow) df_raw in
  selected <- getitem_list doctor_cols df_raw ;;
  df_doctors <- drop_duplicates ["npi"] selected ;;
  df_specialty_and_locations <-
    drop (filter (fun x => negb (mem x ["npi"; "bq_load_dttm"])) doctor_cols)
         df_raw ;;
  Ok (df_doctors, df_specialty_and_locations).

End Transform.

(** A reader of plain decimal numerals, for running the model on the sample
    data.  It is not the parser of [pd.to_numeric], which also reads signs,
    blanks around the numeral, fractions and exponents; no theorem is about
    it, they hold for every [parse_number]. *)
Definition digit_of (c : ascii) : option Z :=
  let n := nat_of_ascii c in
  if ((48 <=? n) && (n <=? 57))%nat then Some (Z.of_nat (n - 48)) else None.

Fixpoint parse_digits (acc : Z) (s : string) : option Z :=
  match s with
  | EmptyString => Some acc
  | String c rest =>
      match digit_of c with
      | Some d => parse_digits (10 * acc + d) rest
      | None => None
      end
  end.

Definition parse_decimal (s : string) : option Z :=
  match s with
  | EmptyString => None
  | _ => parse_digits 0 s
  end.

(** ** The row view

    The frames above are stored by column; the properties of the split are
    about rows.  [row_at df pos] is the row at position [pos]: its labelled
    cells in column order. *)

Definition row_at (df : DataFrame) (pos : nat) : list (string * value) :=
  map (fun c => (fst c, nth pos (snd c) VNull)) (columns df).

(** The first column carrying [label]. *)
Definition column_of (label : string) (df : DataFrame) : option (list value) :=
  assoc label (columns df).

(** What the identifier of a record is once empty strings are missing
    values (an absent identifier is the missing value too, see [value]). *)
Definition npi_key (r : record) : value :=
  replace_value (VStr "") VNull (dict_get "npi" r).

(** A record as the source serves it: every value is a string. *)
Definition textual (r : record) : Prop :=
  forall k v, In (k, v) r -> exists s, v = VStr s.

(** The mask [drop_duplicates] applies to the records. *)
Definition kept (raw_list : list record) : list bool :=
  first_seen [] (map (fun r => [npi_key r]) raw_list).

(** The labels [drop] removes for the second table. *)
Definition person_cols : list string :=
  filter (fun x => negb (mem x ["npi"; "bq_load_dttm"])) doctor_cols.

Section Rows.

Variable parse_number : string -> option Z.
Variable utcnow : Z.

(** The cell a raw value ends as, by the label of its column. *)
Definition final_cell (label : string) (v : value) : value :=
  if String.eqb label "bq_load_dttm" then VTime utcnow
  else if mem label ["graduation_year"; "number_of_group_members"]
       then coerce parse_number (replace_value (VStr "") VNull v)
       else replace_value (VStr "") VNull v.

(** The row of record [r] before the split, in a frame whose raw columns
    are [keys]. *)
Definition full_row (keys : list string) (r : record) : list (string * value) :=
  map (fun k => (renamed rename_map k,
                 final_cell (renamed rename_map k) (dict_get k r))) keys
  ++ (if mem "bq_load_dttm" (map (renamed rename_map) keys)
      then []
      else [("bq_load_dttm", VTime utcnow)]).

(** A numeric conversion written back to its column. *)
Definition coerce_column (label : string) (c : column) : column :=
  if has_label label c then (fst c, map (coerce parse_number) (snd c)) else c.

(** The frame just before the split, described cell by cell: the column
    of each raw key, and the timestamp column when no raw key gives one. *)
Definition final_column (raw_list : list record) (k : string) : column :=
  (renamed rename_map k,
   map (fun r => final_cell (renamed rename_map k) (dict_get k r)) raw_list).

Definition prepared (raw_list : list record) : DataFrame :=
  {| index := seq 0 (length raw_list);
     columns :=
       map (final_column raw_list) (all_keys raw_list)
       ++ (if mem "bq_load_dttm" (map (renamed rename_map) (all_keys raw_list))
           then []
           else [("bq_load_dttm", repeat (VTime utcnow) (length raw_list))]) |}.

Definition doctor_row (keys : list string) (r : record) : list (string * value) :=
  flat_map (fun label => filter (has_label label) (full_row keys r)) doctor_cols.

Definition location_row (keys : list string) (r : record) : list (string * value) :=
  filter (fun c => negb (mem (fst c) person_cols)) (full_row keys r).

End Rows.

(** ** The pipeline *)

(** [main] up to the two loads: the tables handed to the loader, or the
    exception that ends the run.  [None] is an extraction that has not ended
    within [fuel]. *)
Definition main (fetch : string -> nat -> response)
    (parse_number : string -> option Z) (utcnow : Z) (fuel : nat)
  : option (result (DataFrame * DataFrame)) :=
  match extract_cms_data fetch fuel with
  | None => None
  | Some (raw, _) => Some (transform_data parse_number utcnow raw)
  end.

(** ** Sample data *)

Definition sample (npi grd spec : value) : record :=
  [ ("npi", npi); ("ind_pac_id", VStr "1"); ("ind_enrl_id", VStr "I1");
    ("provider_last_name", VStr "DOE"); ("provider_first_name", VStr "JO");
    ("provider_middle_name", VStr ""); ("suff", VStr ""); ("gndr", VStr "F");
    ("grd_yr", grd); ("pri_spec", spec); ("num_org_mem", VStr "12") ].

Definition orthopedic : value := VStr "ORTHOPEDIC SURGERY".
Definition radiology : value := VStr "DIAGNOSTIC RADIOLOGY".

Definition sample_raw : list record :=
  [ sample (VStr "111") (VStr "2005") orthopedic;
    sample (VStr "111") (VStr "N/A") radiology;
    sample (VStr "222") (VStr "") orthopedic ].

(** A record with a field the rename map does not know. *)
Definition sample_extra : record :=
  sample (VStr "111") (VStr "2005") orthopedic ++ [("extra", VStr "x")].

(** A record whose load timestamp is the empty string. *)
Definition sample_stamped : record :=
  sample (VStr "111") (VStr "2005") orthopedic ++ [("bq_load_dttm", VStr "")].

(** A record without a specialty. *)
Definition sample_no_specialty : record :=
  [ ("npi", VStr "333"); ("grd_yr", VStr "1999") ].

(** The tables of a run that does not raise. *)
Definition tables_of (r : result (DataFrame * DataFrame))
  : DataFrame * DataFrame :=
  match r with
  | Ok tables => tables
  | Raise _ => ({| index := []; columns := [] |}, {| index := []; columns := [] |})
  end.

(** A full page and a short page. *)
Definition page_1000 : list record :=
  repeat (sample (VStr "111") (VStr "2005") orthopedic) 1000.

Definition page_400 : list record :=
  repeat (sample (VStr "222") (VStr "") radiology) 400.

(** A source with 3400 records for ["AL"] and none for ["SD"]. *)
Definition source_3400 (state : string) (offset : nat) : response :=
  if String.eqb state "AL"
  then if (offset <? 3000)%nat
       then Page page_1000
       else if (offset =? 3000)%nat then Page page_400 else Page []
  else Page [].

(** A source whose second request for ["AL"] fails. *)
Definition source_failing (state : string) (offset : nat) : response :=
  if String.eqb state "AL"
  then if (offset =? 0)%nat then Page page_1000 else FetchError
  else if (offset =? 0)%nat
       then Page [sample (VStr "222") (VStr "") radiology]
       else Page [].

(** A source every request to which fails. *)
Definition source_down (state : string) (offset : nat) : response := FetchError.

(** A source with one short page per state: two records of one doctor with
    allowed specialties, one of another doctor with a specialty that is not
    allowed, and one record without a specialty. *)
Definition source_small (state : string) (offset : nat) : response :=
  if String.eqb state "AL"
  then if (offset =? 0)%nat
       then Page [ sample (VStr "111") (VStr "2005") orthopedic;
                   sample (VStr "111") (VStr "N/A") radiology;
                   sample (VStr "222") (VStr "1980") (VStr "CARDIOLOGY");
                   sample_no_specialty ]
       else Page []
  else Page [].

(** ** The outcome of the transformation *)

(** The raw keys whose column ends with [label]. *)
Definition feeds (label : string) (raw_list : list record) : list string :=
  filter (fun k => String.eqb label (renamed rename_map k)) (all_keys raw_list).

Section Tables.

Variable parse_number : string -> option Z.
Variable utcnow : Z.

(** Lines 139 to 145: the split of the frame into the two tables. *)
Definition split_tables (df_raw : DataFrame) : result (DataFrame * DataFrame) :=
  selected <- getitem_list doctor_cols df_raw ;;
  df_doctors <- drop_duplicates ["npi"] selected ;;
  df_specialty_and_locations <- drop person_cols df_raw ;;
  Ok (df_doctors, df_specialty_and_locations).

(** The two tables, written out. *)
Definition doctors_table (raw_list : list record) : DataFrame :=
  {| index := pick (kept raw_list) (seq 0 (length raw_list));
     columns :=
       map (fun c => (fst c, pick (kept raw_list) (snd c)))
           (flat_map (fun l => labelled l (prepared parse_number utcnow raw_list))
                     doctor_cols) |}.

Definition locations_table (raw_list : list record) : DataFrame :=
  {| index := seq 0 (length raw_list);
     columns := filter (fun c => negb (mem (fst c) person_cols))
                       (columns (prepared parse_number utcnow raw_list)) |}.

End Tables.

(** ** Loading *)

Definition BQ_PROJECT : string := "home-assignment-478617".
Definition BQ_DATASET : string := "doctors_and_clinicians".

(** What the warehouse client does with one call of [load_to_bigquery]:
    [bigquery.Client.from_service_account_json] raises ([ClientFailed],
    before the [try]); [load_table_from_dataframe] or [job.result()] raises
    ([JobFailed], logged and raised again); or the job loads [output_rows]
    rows. *)
Inductive load_outcome : Type :=
| ClientFailed
| JobFailed
| Loaded (output_rows : nat).

(** [f"{BQ_PROJECT}.{BQ_DATASET}.{table_name}"]. *)
Definition table_id_of (table_name : string) : string :=
  (BQ_PROJECT ++ "." ++ BQ_DATASET ++ "." ++ table_name)%string.

(** How a run ends. *)
Inductive run_outcome : Type :=
| NotEnded
| RaisedInTransform (e : exn)
| RaisedInLoad (table_name : string)
| Completed.

Section Load.

(** The warehouse, as a function of the table id and the frame. *)
Variable warehouse : string -> DataFrame -> load_outcome.

(** [load_to_bigquery]: [jobs] are the load jobs submitted so far; the
    boolean is [false] when the call raises. *)
Definition load_to_bigquery (df : DataFrame) (table_name : string)
    (jobs : list (string * DataFrame)) : bool * list (string * DataFrame) :=
  let table_id := table_id_of table_name in
  match warehouse table_id df with
  | ClientFailed => (false, jobs)
  | JobFailed => (false, jobs ++ [(table_id, df)])
  | Loaded _ => (true, jobs ++ [(table_id, df)])
  end.

(** [main] with its two loads: how the run ends and the jobs it
    submitted. *)
Definition run_main (fetch : string -> nat -> response)
    (parse_number : string -> option Z) (utcnow : Z) (fuel : nat)
  : run_outcome * list (string * DataFrame) :=
  match extract_cms_data fetch fuel with
  | None => (NotEnded, [])
  | Some (raw, _) =>
      match transform_data parse_number utcnow raw with
      | Raise e => (RaisedInTransform e, [])
      | Ok (df_doctors, df_locations) =>
          match load_to_bigquery df_doctors "doctors" [] with
          | (false, jobs) => (RaisedInLoad "doctors", jobs)
          | (true, jobs) =>
              match load_to_bigquery df_locations "specialty_and_locations" jobs with
              | (false, jobs) => (RaisedInLoad "specialty_and_locations", jobs)
              | (true, jobs) => (Completed, jobs)
              end
          end
      end
  end.

End Load.

(** ** More sample data *)

(** A source with exactly one full page for each state. *)
Definition source_1000 (state : string) (offset : nat) : response :=
  if (offset =? 0)%nat then Page page_1000 else Page [].

(** A source that serves a full page whatever is asked. *)
Definition source_endless (state : string) (offset : nat) : response :=
  Page page_1000.

(** A record without a graduation year. *)
Definition sample_no_year : record :=
  [ ("npi", VStr "444"); ("num_org_mem", VStr "3") ].

(** A record with the graduation year under both names. *)
Definition sample_two_years : record :=
  sample (VStr "111") (VStr "2005") orthopedic
  ++ [("graduation_year", VStr "2006")].

(** A record without a suffix and without a gender. *)
Definition sample_no_suffix : record :=
  [ ("npi", VStr "555"); ("ind_pac_id", VStr "1"); ("ind_enrl_id", VStr "I1");
    ("provider_last_name", VStr "DOE"); ("provider_first_name", VStr "JO");
    ("provider_middle_name", VStr ""); ("grd_yr", VStr "2001");
    ("num_org_mem", VStr "3") ].

(** A record with a blank middle name. *)
Definition sample_blank : record :=
  [ ("npi", VStr "666"); ("ind_pac_id", VStr "1"); ("ind_enrl_id", VStr "I1");
    ("provider_last_name", VStr "DOE"); ("provider_first_name", VStr "JO");
    ("provider_middle_name", VStr " "); ("suff", VStr ""); ("gndr", VStr "F");
    ("grd_yr", VStr "2001"); ("pri_spec", orthopedic);
    ("num_org_mem", VStr "3") ].

(** A warehouse that loads every frame, and one that refuses the doctors. *)
Definition warehouse_up (table_id : string) (df : DataFrame) : load_outcome :=
  Loaded (length (index df)).

Definition warehouse_refusing_doctors (table_id : string) (df : DataFrame)
  : load_outcome :=
  if String.eqb table_id (table_id_of "doctors")
  then JobFailed
  else Loaded (length (index df)).

Definition warehouse_refusing_locations (table_id : string) (df : DataFrame)
  : load_outcome :=
  if String.eqb table_id (table_id_of "specialty_and_locations")
  then JobFailed
  else Loaded (length (index df)).

(** Two records of two doctors. *)
Definition sample_distinct : list record :=
  [ sample (VStr "111") (VStr "2005") orthopedic;
    sample (VStr "222") (VStr "N/A") radiology ].

(** * Properties *)

Arguments CHUNK_SIZE : simpl never.

(** ** Basic facts on lists and labels *)

Lemma value_eqb_eq (a b : value) : value_eqb a b = true <-> a = b.
Proof.
  unfold value_eqb. destruct (value_eq_dec a b); split; congruence.
Qed.

Lemma mem_In (x : string) (l : list string) : mem x l = true <-> In x l.
Proof.
  unfold mem. rewrite existsb_exists. split.
  - intros [y [Hy E]]. apply String.eqb_eq in E. now subst.
  - intro H. exists x. split; [assumption | apply String.eqb_refl].
Qed.

Lemma mem_false (x : string) (l : list string) : mem x l = false <-> ~ In x l.
Proof.
  rewrite <- mem_In. destruct (mem x l); split; congruence.
Qed.

(** ** The pagination loop *)

Section ExtractFacts.

Variable fetch : string -> nat -> response.

Lemma paginate_S fuel state offset result log :
  paginate fetch (S fuel) state offset result log =
  match fetch state offset with
  | FetchError => Some (result, log ++ [(state, offset)])
  | Page [] => Some (result, log ++ [(state, offset)])
  | Page data =>
      if (length data <? CHUNK_SIZE)%nat
      then Some (result ++ filter in_filter data, log ++ [(state, offset)])
      else paginate fetch fuel state (offset + CHUNK_SIZE)
             (result ++ filter in_filter data) (log ++ [(state, offset)])
  end.
Proof.
  cbn [paginate]. destruct (fetch state offset) as [|[|x data]]; reflexivity.
Qed.

(** The loop only ever extends its accumulator and its log. *)
Lemma paginate_acc fuel : forall state offset result log,
  paginate fetch fuel state offset result log =
  match paginate fetch fuel state offset [] [] with
  | None => None
  | Some (r, l) => Some (result ++ r, log ++ l)
  end.
Proof.
  induction fuel as [|fuel IH]; intros state offset result log.
  - reflexivity.
  - rewrite !paginate_S.
    destruct (fetch state offset) as [|[|x data]].
    + cbn [app]. now rewrite app_nil_r.
    + cbn [app]. now rewrite app_nil_r.
    + destruct (length (x :: data) <? CHUNK_SIZE)%nat.
      * reflexivity.
      * rewrite IH. rewrite (IH _ _ ([] ++ _) ([] ++ _)).
        destruct (paginate fetch fuel state (offset + CHUNK_SIZE) [] [])
          as [[r l]|]; [|reflexivity].
        rewrite <- !app_assoc. reflexivity.
Qed.

(** More fuel does not change the outcome of a loop that has ended. *)
Lemma paginate_mono fuel : forall state offset result log out extra,
  paginate fetch fuel state offset result log = Some out ->
  paginate fetch (fuel + extra) state offset result log = Some out.
Proof.
  induction fuel as [|fuel IH]; intros state offset result log out extra H.
  - discriminate.
  - change (S fuel + extra) with (S (fuel + extra)).
    rewrite paginate_S in *.
    destruct (fetch state offset) as [|[|x data]]; try assumption.
    destruct (length (x :: data) <? CHUNK_SIZE)%nat; [assumption|].
    now apply IH.
Qed.

Lemma for_states_acc fuel states : forall result log,
  for_states fetch fuel states result log =
  match for_states fetch fuel states [] [] with
  | None => None
  | Some (r, l) => Some (result ++ r, log ++ l)
  end.
Proof.
  induction states as [|state rest IH]; intros result log; cbn [for_states].
  - now rewrite !app_nil_r.
  - rewrite paginate_acc.
    destruct (paginate fetch fuel state 0 [] []) as [[r l]|]; [|reflexivity].
    rewrite IH. rewrite (IH r l).
    destruct (for_states fetch fuel rest [] []) as [[r' l']|]; [|reflexivity].
    now rewrite !app_assoc.
Qed.

Lemma for_states_app fuel pre post :
  for_states fetch fuel (pre ++ post) [] [] =
  match for_states fetch fuel pre [] [] with
  | None => None
  | Some (r, l) =>
      match for_states fetch fuel post [] [] with
      | None => None
      | Some (r', l') => Some (r ++ r', l ++ l')
      end
  end.
Proof.
  induction pre as [|state pre IH]; cbn [app for_states].
  - destruct (for_states fetch fuel post [] []) as [[r l]|]; reflexivity.
  - destruct (paginate fetch fuel state 0 [] []) as [[r l]|]; [|reflexivity].
    rewrite for_states_acc, IH. rewrite (for_states_acc _ pre r l).
    destruct (for_states fetch fuel pre [] []) as [[r1 l1]|]; [|reflexivity].
    destruct (for_states fetch fuel post [] []) as [[r2 l2]|]; [|reflexivity].
    now rewrite !app_assoc.
Qed.

Lemma offsets_S state offset count :
  offsets state offset (S count) =
  (state, offset) :: offsets state (offset + CHUNK_SIZE) count.
Proof.
  unfold offsets. cbn [seq map]. f_equal.
  - f_equal. lia.
  - rewrite <- seq_shift, map_map. apply map_ext. intro j. f_equal. lia.
Qed.

Lemma full_pages_tail state offset p pages :
  full_pages fetch state offset (p :: pages) ->
  full_pages fetch state (offset + CHUNK_SIZE) pages.
Proof.
  intros H j q Hj. specialize (H (S j) q Hj).
  replace (offset + CHUNK_SIZE + j * CHUNK_SIZE)
    with (offset + S j * CHUNK_SIZE) by lia.
  exact H.
Qed.

(** Full pages are consumed one per iteration. *)
Lemma paginate_full_pages pages : forall fuel state offset result log,
  full_pages fetch state offset pages ->
  paginate fetch (length pages + fuel) state offset result log =
  paginate fetch fuel state (offset + length pages * CHUNK_SIZE)
    (result ++ flat_map (filter in_filter) pages)
    (log ++ offsets state offset (length pages)).
Proof.
  induction pages as [|p pages IH]; intros fuel state offset result log H.
  - cbn. rewrite !app_nil_r. f_equal. lia.
  - cbn [length plus]. rewrite paginate_S.
    destruct (H 0 p eq_refl) as [Hp Hlen].
    replace (offset + 0 * CHUNK_SIZE) with offset in Hp by lia.
    rewrite Hp.
    assert (0 < CHUNK_SIZE) by (unfold CHUNK_SIZE; lia).
    destruct p as [|x p]; [cbn in Hlen; lia|].
    destruct (Nat.ltb_spec (length (x :: p)) CHUNK_SIZE) as [Hlt|_]; [lia|].
    rewrite IH by (eapply full_pages_tail; eassumption).
    rewrite offsets_S. cbn [flat_map].
    rewrite <- !app_assoc. cbn [app].
    f_equal. lia.
Qed.

(** What one state contributes is the filtered pages of the requests
    issued for it, in order; the requests are at successive multiples of
    the page size. *)
Lemma paginate_shape fuel : forall state offset r l,
  paginate fetch fuel state offset [] [] = Some (r, l) ->
  exists count,
    0 < count /\
    l = offsets state offset count /\
    r = flat_map (fun q => filter in_filter (served fetch q)) l.
Proof.
  induction fuel as [|fuel IH]; intros state offset r l H.
  - discriminate.
  - rewrite paginate_S in H.
    assert (Hone : offsets state offset 1 = [(state, offset)]).
    { unfold offsets. cbn. do 2 f_equal. lia. }
    assert (Hs : served fetch (state, offset) =
                 match fetch state offset with
                 | FetchError => [] | Page data => data end) by reflexivity.
    destruct (fetch state offset) as [|[|x data]] eqn:Hf.
    + injection H as <- <-. exists 1. rewrite Hone. cbn [flat_map app].
      rewrite Hs. repeat split. lia.
    + injection H as <- <-. exists 1. rewrite Hone. cbn [flat_map app].
      rewrite Hs. repeat split. lia.
    + destruct (length (x :: data) <? CHUNK_SIZE)%nat.
      * injection H as <- <-. exists 1. rewrite Hone. cbn [flat_map app].
        rewrite Hs, app_nil_r. repeat split. lia.
      * rewrite paginate_acc in H.
        destruct (paginate fetch fuel state (offset + CHUNK_SIZE) [] [])
          as [[r' l']|] eqn:Hrec; [|discriminate].
        injection H as <- <-.
        destruct (IH _ _ _ _ Hrec) as [count [Hc [Hl Hr]]].
        exists (S count). rewrite offsets_S, <- Hl.
        cbn [app flat_map]. rewrite Hs, <- Hr. repeat split. lia.
Qed.

End ExtractFacts.

Section ExtractShape.

Variable fetch : string -> nat -> response.

Lemma in_filter_spec (x : record) :
  in_filter x = true <-> In (dict_get "pri_spec" x) SPECIALTY_FILTER.
Proof.
  unfold in_filter, py_in. rewrite existsb_exists. split.
  - intros [v [Hv E]]. apply value_eqb_eq in E. now subst.
  - intro H. exists (dict_get "pri_spec" x). split; [assumption|].
    now apply value_eqb_eq.
Qed.

Lemma filtered_pages_allowed (l : list (string * nat)) :
  Forall (fun x => in_filter x = true)
         (flat_map (fun q => filter in_filter (served fetch q)) l).
Proof.
  apply Forall_forall. intros x Hx. apply in_flat_map in Hx.
  destruct Hx as [q [_ Hq]]. now apply filter_In in Hq.
Qed.

(** The requests of a full run: for each state in turn, a positive number
    of requests a page apart from offset 0; the result is what they
    served, filtered, in that order. *)
Lemma for_states_shape fuel states : forall r l,
  for_states fetch fuel states [] [] = Some (r, l) ->
  exists counts,
    length counts = length states /\
    Forall (fun c => 0 < c) counts /\
    l = flat_map (fun sc => offsets (fst sc) 0 (snd sc)) (combine states counts) /\
    r = flat_map (fun q => filter in_filter (served fetch q)) l.
Proof.
  induction states as [|state rest IH]; intros r l H.
  - injection H as <- <-. exists []. repeat split. constructor.
  - cbn [for_states] in H.
    destruct (paginate fetch fuel state 0 [] []) as [[r1 l1]|] eqn:H1;
      [|discriminate].
    rewrite for_states_acc in H.
    destruct (for_states fetch fuel rest [] []) as [[r2 l2]|] eqn:H2;
      [|discriminate].
    injection H as <- <-.
    destruct (paginate_shape _ _ _ _ H1) as [c [Hc [Hl1 Hr1]]].
    destruct (IH _ _ eq_refl) as [counts [Hlen [Hpos [Hl2 Hr2]]]].
    exists (c :: counts). cbn [length combine flat_map fst snd].
    rewrite flat_map_app, <- Hl1, <- Hl2, <- Hr1, <- Hr2.
    repeat split; auto.
Qed.

End ExtractShape.

(** ** Lists, masks and labels *)

Lemma assoc_In {A : Type} (k : string) (d : list (string * A)) (v : A) :
  assoc k d = Some v -> In (k, v) d.
Proof.
  induction d as [|[k' v'] d IH]; cbn [assoc]; [discriminate|].
  destruct (String.eqb_spec k k') as [->|_].
  - intros [= ->]. now left.
  - intro H. right. auto.
Qed.

Lemma assoc_None {A : Type} (k : string) (d : list (string * A)) :
  assoc k d = None <-> ~ In k (map fst d).
Proof.
  induction d as [|[k' v'] d IH]; cbn [assoc map fst In]; [tauto|].
  destruct (String.eqb_spec k k') as [->|Hne].
  - split; [discriminate | intro H; exfalso; apply H; now left].
  - rewrite IH. split; [intros H [E|I]; [congruence | tauto] | tauto].
Qed.

Lemma unique_In (x : string) (l : list string) : In x (unique l) <-> In x l.
Proof.
  induction l as [|k l IH]; cbn [unique In]; [tauto|].
  rewrite filter_In, IH.
  destruct (String.eqb_spec k x) as [->|Hne]; cbn; [tauto|].
  split; [tauto | intros [E|I]; [now left | right; now split]].
Qed.

Lemma unique_NoDup (l : list string) : NoDup (unique l).
Proof.
  induction l as [|k l IH]; cbn [unique]; constructor.
  - rewrite filter_In, String.eqb_refl. cbn. intros [_ H]. discriminate.
  - now apply NoDup_filter.
Qed.

Lemma filter_all_false {A : Type} (f : A -> bool) (l : list A) :
  (forall x, In x l -> f x = false) -> filter f l = [].
Proof.
  induction l as [|x l IH]; intro H; [reflexivity|].
  cbn [filter]. rewrite (H x) by now left. apply IH. intros; apply H; now right.
Qed.

Lemma filter_eqb_NoDup (x : string) (l : list string) :
  NoDup l -> In x l -> filter (String.eqb x) l = [x].
Proof.
  induction 1 as [|y l Hy Hl IH]; intro Hin; [destruct Hin|].
  cbn [filter]. destruct (String.eqb_spec x y) as [->|Hne].
  - f_equal. apply filter_all_false.
    intros z Hz. destruct (String.eqb_spec y z) as [->|_]; [contradiction|reflexivity].
  - destruct Hin as [E|Hin]; [congruence | auto].
Qed.

Lemma filter_singleton {A : Type} (f : A -> bool) (l : list A) (x : A) :
  filter f l = [x] -> forall y, In y l -> f y = true -> y = x.
Proof.
  intros H y Hy Hf.
  assert (Hin : In y (filter f l)) by (apply filter_In; now split).
  rewrite H in Hin. destruct Hin as [E|[]]. now symmetry.
Qed.

Lemma map_flat_map_comm {A B C : Type} (f : B -> C) (g : A -> list B) (l : list A) :
  map f (flat_map g l) = flat_map (fun x => map f (g x)) l.
Proof.
  induction l as [|x l IH]; [reflexivity|].
  cbn [flat_map]. now rewrite map_app, IH.
Qed.

Lemma filter_map_label {A B : Type} (label : string) (f : string * A -> B)
    (l : list (string * A)) :
  filter (has_label label) (map (fun c => (fst c, f c)) l) =
  map (fun c => (fst c, f c)) (filter (has_label label) l).
Proof.
  induction l as [|c l IH]; [reflexivity|].
  cbn [map filter]. rewrite IH. unfold has_label. cbn [fst].
  destruct (String.eqb label (fst c)); reflexivity.
Qed.

Lemma map_nth_seq {A B : Type} (f : A -> B) (d : A) (l : list A) :
  map (fun i => f (nth i l d)) (seq 0 (length l)) = map f l.
Proof.
  induction l as [|x l IH]; [reflexivity|].
  cbn [length seq map nth]. f_equal.
  rewrite <- seq_shift, map_map. exact IH.
Qed.

Lemma map_const_repeat {A B : Type} (v : B) (l : list A) :
  map (fun _ => v) l = repeat v (length l).
Proof.
  induction l as [|x l IH]; [reflexivity|]. cbn. now rewrite IH.
Qed.

Lemma nth_map_record {B : Type} (f : record -> B) (d : B) (l : list record) i r :
  nth_error l i = Some r -> nth i (map f l) d = f r.
Proof.
  revert i. induction l as [|x l IH]; intros [|i] H; try discriminate.
  - now injection H as ->.
  - cbn. now apply IH.
Qed.

(** *** The mask of first occurrences *)

Lemma seen_before_spec k seen : seen_before k seen = true <-> In k seen.
Proof.
  unfold seen_before. destruct (in_dec key_eq_dec k seen); split; congruence.
Qed.

Lemma first_seen_length keys : forall seen,
  length (first_seen seen keys) = length keys.
Proof.
  induction keys as [|k keys IH]; intro seen; [reflexivity|].
  cbn [first_seen]. destruct (seen_before k seen); cbn [length]; now rewrite IH.
Qed.

Lemma pick_map {A B : Type} (f : A -> B) mask : forall l,
  pick mask (map f l) = map f (pick mask l).
Proof.
  induction mask as [|b mask IH]; intros [|x l]; try reflexivity.
  cbn [map pick]. destruct b; cbn [map]; now rewrite IH.
Qed.

Lemma pick_In {A : Type} mask : forall (l : list A) x,
  In x (pick mask l) -> In x l.
Proof.
  induction mask as [|b mask IH]; intros l x H.
  - destruct l; destruct H.
  - destruct l as [|y l]; [destruct H|].
    cbn [pick] in H. destruct b.
    + destruct H as [E|H]; [now left | right; auto].
    + right; auto.
Qed.

(** The kept keys are the keys not seen before, each once. *)
Lemma first_seen_keys keys : forall seen,
  NoDup (pick (first_seen seen keys) keys) /\
  forall k, In k (pick (first_seen seen keys) keys) <->
            In k keys /\ ~ In k seen.
Proof.
  induction keys as [|k0 keys IH]; intro seen.
  - cbn. split; [constructor | tauto].
  - cbn [first_seen]. destruct (seen_before k0 seen) eqn:E.
    + apply seen_before_spec in E. cbn [pick].
      destruct (IH seen) as [Hnd Hin]. split; [assumption|].
      intro k. rewrite Hin. cbn [In]. split; [tauto|].
      intros [[->|H] Hn]; tauto.
    + assert (Hn : ~ In k0 seen).
      { intro H. apply seen_before_spec in H. congruence. }
      cbn [pick]. destruct (IH (k0 :: seen)) as [Hnd Hin]. split.
      * constructor; [|assumption]. rewrite Hin. cbn. tauto.
      * intro k. cbn [In]. rewrite Hin. cbn [In].
        destruct (key_eq_dec k0 k) as [->|Hne]; tauto.
Qed.


(** A kept position reads, in any picked column, the cell of that position. *)
Lemma pick_nth_error {A : Type} mask : forall (l : list A) start pos i,
  length l = length mask ->
  nth_error (pick mask (seq start (length mask))) pos = Some i ->
  start <= i /\ nth_error (pick mask l) pos = nth_error l (i - start).
Proof.
  induction mask as [|b mask IH]; intros l start pos i Hlen H.
  - destruct pos; discriminate.
  - destruct l as [|x l]; [discriminate|]. injection Hlen as Hlen.
    cbn [length seq pick] in *. destruct b.
    + destruct pos as [|pos]; cbn [nth_error] in *.
      * injection H as <-. replace (start - start) with 0 by lia. now split.
      * destruct (IH l (S start) pos i Hlen H) as [Hs Hn].
        replace (i - start) with (S (i - S start)) by lia. split; [lia | exact Hn].
    + destruct (IH l (S start) pos i Hlen H) as [Hs Hn].
      replace (i - start) with (S (i - S start)) by lia. split; [lia | exact Hn].
Qed.

(** ** The frame before the split *)

Section TransformFacts.

Variable parse_number : string -> option Z.
Variable utcnow : Z.

Lemma normalized_frame (raw_list : list record) :
  replace (VStr "") VNull (rename rename_map (frame_of_records raw_list)) =
  {| index := seq 0 (length raw_list);
     columns :=
       map (fun k => (renamed rename_map k,
                      map (fun r => replace_value (VStr "") VNull (dict_get k r))
                          raw_list))
           (all_keys raw_list) |}.
Proof.
  unfold replace, rename, frame_of_records. cbn [index columns]. f_equal.
  rewrite !map_map. apply map_ext. intro k. cbn [fst snd].
  now rewrite map_map.
Qed.

Lemma labelled_nonempty_mem label df c rest :
  labelled label df = c :: rest -> mem label (names df) = true.
Proof.
  intro H. apply mem_In.
  assert (Hin : In c (labelled label df)) by (rewrite H; now left).
  apply filter_In in Hin. destruct Hin as [Hin Hl].
  apply String.eqb_eq in Hl. rewrite Hl. now apply in_map.
Qed.

(** Overwriting a column with its own coerced values, when the label is
    carried by one column only. *)
Lemma setitem_numeric label df arg numeric :
  getitem label df = Ok arg ->
  to_numeric parse_number arg = Ok numeric ->
  setitem label numeric df =
  {| index := index df;
     columns := map (coerce_column parse_number label) (columns df) |}.
Proof.
  unfold getitem. destruct (labelled label df) as [|c [|c' rest]] eqn:E;
    intros Hg Hn; try discriminate.
  - injection Hg as <-. cbn in Hn. injection Hn as <-.
    unfold setitem. rewrite (labelled_nonempty_mem _ _ E). f_equal.
    apply map_ext_in. intros c' Hc'. unfold coerce_column.
    destruct (has_label label c') eqn:Hl; [|reflexivity].
    now rewrite (filter_singleton _ _ E c' Hc' Hl).
  - injection Hg as <-. discriminate.
Qed.

Lemma final_column_steps (raw_list : list record) (k : string) :
  let c := coerce_column parse_number "number_of_group_members"
             (coerce_column parse_number "graduation_year"
                (renamed rename_map k,
                 map (fun r => replace_value (VStr "") VNull (dict_get k r))
                     raw_list)) in
  fst c = renamed rename_map k /\
  (if has_label "bq_load_dttm" c
   then (fst c, repeat (VTime utcnow) (length raw_list)) else c)
  = final_column parse_number utcnow raw_list k.
Proof.
  cbv zeta. unfold final_column, final_cell, coerce_column, has_label, mem.
  generalize (renamed rename_map k). intro l. cbn [fst snd existsb].
  destruct (String.eqb_spec "graduation_year" l) as [<-|Hg].
  - cbn. split; [reflexivity|]. now rewrite map_map.
  - cbn [fst snd].
    destruct (String.eqb_spec "number_of_group_members" l) as [<-|Hm].
    + cbn. split; [reflexivity|]. now rewrite map_map.
    + cbn [fst snd]. split; [reflexivity|].
      destruct (String.eqb_spec "bq_load_dttm" l) as [<-|Hb].
      * cbn. now rewrite map_const_repeat.
      * apply not_eq_sym in Hg, Hm, Hb.
        apply String.eqb_neq in Hg, Hm, Hb. rewrite Hg, Hm, Hb.
        reflexivity.
Qed.

(** A successful run splits the frame [prepared] describes. *)
Lemma transform_data_prepared raw_list df_doctors df_sl :
  transform_data parse_number utcnow raw_list = Ok (df_doctors, df_sl) ->
  exists selected,
    getitem_list doctor_cols (prepared parse_number utcnow raw_list) = Ok selected /\
    drop_duplicates ["npi"] selected = Ok df_doctors /\
    drop person_cols (prepared parse_number utcnow raw_list) = Ok df_sl.
Proof.
  unfold transform_data. rewrite normalized_frame.
  set (df2 := {| index := _; columns := _ |}).
  destruct (getitem "graduation_year" df2) as [arg1|] eqn:G1; [|discriminate].
  cbn [bind].
  destruct (to_numeric parse_number arg1) as [num1|] eqn:N1; [|discriminate].
  cbn [bind]. rewrite (setitem_numeric _ _ G1 N1).
  set (df3 := {| index := _; columns := _ |}).
  destruct (getitem "number_of_group_members" df3) as [arg2|] eqn:G2;
    [|discriminate].
  cbn [bind].
  destruct (to_numeric parse_number arg2) as [num2|] eqn:N2; [|discriminate].
  cbn [bind]. rewrite (setitem_numeric _ _ G2 N2).
  set (df4 := {| index := _; columns := _ |}).
  assert (E : setitem_scalar "bq_load_dttm" (VTime utcnow) df4 =
              prepared parse_number utcnow raw_list).
  { unfold setitem_scalar, setitem, prepared, df4, df3, df2, names.
    cbn [index columns]. rewrite length_seq. f_equal.
    rewrite !map_map.
    pose proof (final_column_steps raw_list) as Hk. cbv zeta in Hk.
    replace (map (fun x => fst _) (all_keys raw_list))
      with (map (renamed rename_map) (all_keys raw_list))
      by (apply map_ext; intro k; symmetry; apply (Hk k)).
    destruct (mem "bq_load_dttm" (map (renamed rename_map) (all_keys raw_list)))
      eqn:Hmem.
    - rewrite app_nil_r. apply map_ext. intro k. apply (Hk k).
    - f_equal. apply map_ext_in. intros k Hin.
      destruct (Hk k) as [Hfst Hfin]. rewrite <- Hfin.
      unfold has_label at 1. rewrite Hfst.
      destruct (String.eqb_spec "bq_load_dttm" (renamed rename_map k)) as [Eb|_];
        [|reflexivity].
      apply mem_false in Hmem. exfalso. apply Hmem. rewrite Eb.
      now apply in_map. }
  rewrite E.
  destruct (getitem_list doctor_cols _) as [selected|] eqn:S; [|discriminate].
  cbn [bind].
  destruct (drop_duplicates ["npi"] selected) as [docs|] eqn:D; [|discriminate].
  cbn [bind]. fold person_cols.
  destruct (drop person_cols _) as [sl|] eqn:L; [|discriminate].
  cbn [bind]. intros [= <- <-]. exists selected. auto.
Qed.

End TransformFacts.

(** ** The two tables *)

Lemma filter_map_swap {A B : Type} (f : B -> bool) (g : A -> B) (l : list A) :
  filter f (map g l) = map g (filter (fun x => f (g x)) l).
Proof.
  induction l as [|x l IH]; [reflexivity|].
  cbn [map filter]. destruct (f (g x)); cbn [map]; now rewrite IH.
Qed.

Lemma filter_labelled (f : string -> bool) label df :
  filter (fun c => f (fst c)) (labelled label df) =
  if f label then labelled label df else [].
Proof.
  unfold labelled. destruct (f label) eqn:E.
  - apply forallb_filter_id. apply forallb_forall.
    intros c Hc. apply filter_In in Hc. destruct Hc as [_ Hc].
    apply String.eqb_eq in Hc. now rewrite <- Hc.
  - apply filter_all_false. intros c Hc. apply filter_In in Hc.
    destruct Hc as [_ Hc]. apply String.eqb_eq in Hc. now rewrite <- Hc.
Qed.

Lemma filter_flat_map_labelled (f : string -> bool) labels df :
  filter (fun c => f (fst c)) (flat_map (fun l => labelled l df) labels) =
  flat_map (fun l => labelled l df) (filter f labels).
Proof.
  induction labels as [|l labels IH]; [reflexivity|].
  cbn [flat_map]. rewrite filter_app, filter_labelled.
  cbn [filter]. destruct (f l); cbn [flat_map app]; [f_equal|]; exact IH.
Qed.

Lemma renamed_cases (k label : string) :
  renamed rename_map k = label ->
  In (k, label) rename_map \/ (k = label /\ ~ In k (map fst rename_map)).
Proof.
  unfold renamed. destruct (assoc k rename_map) as [l|] eqn:E.
  - intros <-. left. now apply assoc_In.
  - intros <-. right. split; [reflexivity | now apply assoc_None].
Qed.

Lemma renamed_npi (k : string) : renamed rename_map k = "npi" -> k = "npi".
Proof.
  intro H. apply renamed_cases in H. destruct H as [H|[H _]]; [|exact H].
  cbn in H. repeat (destruct H as [H|H]; [now inversion H|]). destruct H.
Qed.

Section Split.

Variable parse_number : string -> option Z.
Variable utcnow : Z.

Lemma names_prepared raw_list :
  names (prepared parse_number utcnow raw_list) =
  map (renamed rename_map) (all_keys raw_list)
  ++ (if mem "bq_load_dttm" (map (renamed rename_map) (all_keys raw_list))
      then [] else ["bq_load_dttm"]).
Proof.
  unfold names, prepared. cbn [columns]. rewrite map_app, map_map. f_equal.
  destruct (mem _ _); reflexivity.
Qed.

Lemma missing_nil_In labels df label :
  missing labels df = [] -> In label labels -> In label (names df).
Proof.
  unfold missing. intros H Hin. apply mem_In.
  destruct (mem label (names df)) eqn:E; [reflexivity|].
  assert (Hf : In label (filter (fun l => negb (mem l (names df))) labels)).
  { apply filter_In. split; [assumption | now rewrite E]. }
  rewrite H in Hf. destruct Hf.
Qed.

Lemma npi_column raw_list :
  In "npi" (names (prepared parse_number utcnow raw_list)) ->
  labelled "npi" (prepared parse_number utcnow raw_list) =
  [("npi", map npi_key raw_list)].
Proof.
  intro Hin. rewrite names_prepared in Hin.
  assert (Hk : In "npi" (all_keys raw_list)).
  { apply in_app_or in Hin. destruct Hin as [Hin|Hin].
    - apply in_map_iff in Hin. destruct Hin as [k [Hk Hin]].
      apply renamed_npi in Hk. now subst.
    - destruct (mem _ _); [destruct Hin|].
      destruct Hin as [Hin|[]]. discriminate. }
  unfold labelled, prepared. cbn [columns]. rewrite filter_app.
  replace (filter (has_label "npi") (if mem _ _ then [] else _))
    with (@nil column) by (destruct (mem _ _); reflexivity).
  rewrite app_nil_r, filter_map_swap.
  rewrite (@filter_ext _ _ (String.eqb "npi")).
  - unfold all_keys in *.
    rewrite (@filter_eqb_NoDup "npi" _ (unique_NoDup _) Hk). reflexivity.
  - intro k. unfold has_label, final_column. cbn [fst].
    destruct (String.eqb_spec "npi" (renamed rename_map k)) as [E|E].
    + symmetry in E. apply renamed_npi in E. subst. reflexivity.
    + destruct (String.eqb_spec "npi" k) as [<-|_]; [|reflexivity].
      exfalso. apply E. reflexivity.
Qed.

(** The two tables of a successful run, in terms of [prepared]. *)
Lemma transform_data_tables raw_list df_doctors df_sl :
  transform_data parse_number utcnow raw_list = Ok (df_doctors, df_sl) ->
  let P := prepared parse_number utcnow raw_list in
  (forall label, In label doctor_cols -> In label (names P)) /\
  df_doctors =
    {| index := pick (kept raw_list) (seq 0 (length raw_list));
       columns := map (fun c => (fst c, pick (kept raw_list) (snd c)))
                      (flat_map (fun l => labelled l P) doctor_cols) |} /\
  df_sl =
    {| index := seq 0 (length raw_list);
       columns := filter (fun c => negb (mem (fst c) person_cols)) (columns P) |}.
Proof.
  intro H. apply transform_data_prepared in H.
  destruct H as [selected [Hs [Hd Hl]]]. cbv zeta.
  set (P := prepared parse_number utcnow raw_list) in *.
  unfold getitem_list in Hs.
  destruct (missing doctor_cols P) eqn:Hm; [|discriminate].
  injection Hs as <-.
  assert (Hcols : forall label, In label doctor_cols -> In label (names P)).
  { intros label Hin. eapply missing_nil_In; eassumption. }
  split; [exact Hcols|]. split.
  - assert (Hkeys : keys_of ["npi"]
              {| index := index P;
                 columns := flat_map (fun l => labelled l P) doctor_cols |}
            = map (fun r => [npi_key r]) raw_list).
    { unfold keys_of. cbn [index columns].
      rewrite (filter_flat_map_labelled (fun l => mem l ["npi"])).
      change (filter (fun l => mem l ["npi"]) doctor_cols) with ["npi"].
      cbn [flat_map]. rewrite app_nil_r.
      unfold P at 1. rewrite npi_column by (apply Hcols; now left).
      cbn [map snd]. unfold row_of. cbn [map].
      unfold P, prepared. cbn [index]. rewrite length_seq.
      rewrite <- (length_map npi_key raw_list).
      rewrite (map_nth_seq (fun v => [v])). now rewrite map_map. }
    unfold drop_duplicates in Hd.
    destruct (missing ["npi"] _); [|discriminate].
    injection Hd as <-. unfold kept. rewrite <- Hkeys. reflexivity.
  - unfold drop in Hl. destruct (missing person_cols P); [|discriminate].
    now injection Hl as <-.
Qed.

End Split.

(** ** Rows of the two tables *)

Lemma filter_map_fst {A B : Type} (g : string -> bool) (f : string * A -> B)
    (l : list (string * A)) :
  filter (fun c => g (fst c)) (map (fun c => (fst c, f c)) l) =
  map (fun c => (fst c, f c)) (filter (fun c => g (fst c)) l).
Proof.
  induction l as [|c l IH]; [reflexivity|].
  cbn [map filter fst]. rewrite IH. destruct (g (fst c)); reflexivity.
Qed.

Lemma nth_repeat_lt {A : Type} (v d : A) n : forall i,
  i < n -> nth i (repeat v n) d = v.
Proof.
  induction n as [|n IH]; intros i Hi; [lia|].
  destruct i as [|i]; [reflexivity|]. cbn. apply IH. lia.
Qed.

Lemma nth_error_nth_eq {A : Type} (d : A) (l l' : list A) i j :
  nth_error l i = nth_error l' j -> nth i l d = nth j l' d.
Proof.
  intro H. rewrite <- !nth_default_eq. unfold nth_default. now rewrite H.
Qed.

Section RowFacts.

Variable parse_number : string -> option Z.
Variable utcnow : Z.

Lemma prepared_lengths raw_list c :
  In c (columns (prepared parse_number utcnow raw_list)) ->
  length (snd c) = length raw_list.
Proof.
  unfold prepared. cbn [columns]. intro H. apply in_app_or in H.
  destruct H as [H|H].
  - apply in_map_iff in H. destruct H as [k [<- _]].
    unfold final_column. cbn [snd]. apply length_map.
  - destruct (mem _ _); [destruct H|].
    destruct H as [<-|[]]. cbn [snd]. apply repeat_length.
Qed.

Lemma row_at_prepared raw_list i r :
  nth_error raw_list i = Some r ->
  row_at (prepared parse_number utcnow raw_list) i =
  full_row parse_number utcnow (all_keys raw_list) r.
Proof.
  intro H. unfold row_at, prepared, full_row. cbn [columns].
  rewrite map_app, map_map. f_equal.
  - apply map_ext. intro k. unfold final_column. cbn [fst snd].
    f_equal.
    now apply nth_map_record
      with (f := fun r0 => final_cell parse_number utcnow
                            (renamed rename_map k) (dict_get k r0)).
  - destruct (mem _ _); [reflexivity|]. cbn [map fst snd].
    rewrite nth_repeat_lt; [reflexivity|].
    apply nth_error_Some. congruence.
Qed.

(** Row [i] of the second table is the location row of record [i]. *)
Lemma row_at_locations raw_list df_doctors df_sl i r :
  transform_data parse_number utcnow raw_list = Ok (df_doctors, df_sl) ->
  nth_error raw_list i = Some r ->
  row_at df_sl i = location_row parse_number utcnow (all_keys raw_list) r.
Proof.
  intros H Hi. apply transform_data_tables in H.
  destruct H as [_ [_ ->]]. unfold row_at at 1. cbn [columns].
  unfold location_row. rewrite <- (row_at_prepared _ _ Hi). unfold row_at.
  symmetry.
  apply (filter_map_fst (fun l => negb (mem l person_cols))
           (fun c => nth i (snd c) VNull)).
Qed.

(** A row of the first table carries the position of a record as its
    label, and is the doctor row of that record. *)
Lemma row_at_doctors raw_list df_doctors df_sl pos i :
  transform_data parse_number utcnow raw_list = Ok (df_doctors, df_sl) ->
  nth_error (index df_doctors) pos = Some i ->
  exists r,
    nth_error raw_list i = Some r /\
    row_at df_doctors pos =
    doctor_row parse_number utcnow (all_keys raw_list) r.
Proof.
  intros H Hpos. apply transform_data_tables in H.
  destruct H as [_ [-> _]]. cbn [index] in Hpos.
  assert (Hlen : length (kept raw_list) = length raw_list).
  { unfold kept. now rewrite first_seen_length, length_map. }
  assert (Hi : i < length raw_list).
  { apply nth_error_In, pick_In, in_seq in Hpos. lia. }
  destruct (nth_error raw_list i) as [r|] eqn:Hr;
    [|apply nth_error_None in Hr; lia].
  exists r. split; [reflexivity|].
  unfold row_at at 1. cbn [columns]. rewrite map_map. cbn [fst snd].
  unfold doctor_row. rewrite <- (row_at_prepared _ _ Hr).
  set (P := prepared parse_number utcnow raw_list).
  transitivity (map (fun c : column => (fst c, nth i (snd c) VNull))
                    (flat_map (fun l => labelled l P) doctor_cols)).
  - apply map_ext_in. intros c Hc. f_equal.
    apply nth_error_nth_eq.
    assert (Hc' : In c (columns P)).
    { apply in_flat_map in Hc. destruct Hc as [l [_ Hc]].
      now apply filter_In in Hc. }
    apply prepared_lengths in Hc'.
    rewrite <- Hlen in Hpos.
    destruct (@pick_nth_error _ (kept raw_list) (snd c) 0 pos i) as [_ E];
      [congruence | exact Hpos |].
    rewrite E. f_equal. lia.
  - rewrite map_flat_map_comm. apply flat_map_ext. intro l.
    unfold labelled, row_at. symmetry.
    apply (filter_map_label l (fun c => nth i (snd c) VNull)).
Qed.

End RowFacts.

(** ** Theorems on the extraction *)

Lemma offsets_snoc state offset count :
  offsets state offset (S count) =
  offsets state offset count ++ [(state, offset + count * CHUNK_SIZE)].
Proof.
  unfold offsets. now rewrite seq_S, map_app.
Qed.

Lemma offsets_head state offset count :
  0 < count -> In (state, offset) (offsets state offset count).
Proof.
  destruct count as [|count]; [lia|]. intros _. rewrite offsets_S. now left.
Qed.

(** Every state of the loop is asked for its first page. *)
Lemma for_states_first fetch fuel states : forall r l s,
  for_states fetch fuel states [] [] = Some (r, l) ->
  In s states -> In (s, 0) l.
Proof.
  induction states as [|state rest IH]; intros r l s H Hin; [destruct Hin|].
  cbn [for_states] in H.
  destruct (paginate fetch fuel state 0 [] []) as [[r1 l1]|] eqn:H1;
    [|discriminate].
  rewrite for_states_acc in H.
  destruct (for_states fetch fuel rest [] []) as [[r2 l2]|] eqn:H2;
    [|discriminate].
  injection H as <- <-. apply in_or_app. destruct Hin as [<-|Hin].
  - left. destruct (paginate_shape _ _ _ _ H1) as [c [Hc [-> _]]].
    now apply offsets_head.
  - right. eapply IH; [reflexivity | exact Hin].
Qed.

(** A run that meets a short, empty or failed response after [pages] full
    pages ends there, whatever the fuel left. *)
Lemma paginate_ends fetch fuel state pages (last : list record) :
  full_pages fetch state 0 pages ->
  (fetch state (length pages * CHUNK_SIZE) = FetchError /\ last = []
   \/ fetch state (length pages * CHUNK_SIZE) = Page last /\
      length last < CHUNK_SIZE) ->
  length pages < fuel ->
  paginate fetch fuel state 0 [] [] =
  Some (flat_map (filter in_filter) pages ++ filter in_filter last,
        offsets state 0 (S (length pages))).
Proof.
  intros Hfull Hlast Hfuel.
  replace fuel with (length pages + S (fuel - length pages - 1)) by lia.
  rewrite (paginate_full_pages _ _ _ Hfull). cbn [app plus].
  rewrite paginate_S, offsets_snoc. cbn [plus].
  destruct Hlast as [[-> ->]|[-> Hlen]].
  - cbn [filter]. now rewrite app_nil_r.
  - destruct last as [|x last]; [cbn [filter]; now rewrite app_nil_r|].
    destruct (Nat.ltb_spec (length (x :: last)) CHUNK_SIZE) as [_|Hge];
      [reflexivity | lia].
Qed.

(** C7. One state served pages of 1000, 1000, 1000 and 400 records is asked
    exactly four times, at offsets 0, 1000, 2000 and 3000 in that order, and
    the loop ends on the 400-record page; in general a non-empty page
    shorter than the page size is the last request of its state. *)
Theorem pagination_stops_on_short_page
    (fetch : string -> nat -> response) (state : string)
    (p0 p1 p2 p3 : list record) (fuel : nat) :
  fetch state 0 = Page p0 -> fetch state 1000 = Page p1 ->
  fetch state 2000 = Page p2 -> fetch state 3000 = Page p3 ->
  length p0 = 1000 -> length p1 = 1000 -> length p2 = 1000 ->
  length p3 = 400 ->
  4 <= fuel ->
  paginate fetch fuel state 0 [] [] =
    Some (filter in_filter p0 ++ filter in_filter p1 ++ filter in_filter p2
          ++ filter in_filter p3,
          [(state, 0); (state, 1000); (state, 2000); (state, 3000)])
  /\ (forall offset p result log n,
        fetch state offset = Page p -> p <> [] -> length p < CHUNK_SIZE ->
        paginate fetch (S n) state offset result log =
        Some (result ++ filter in_filter p, log ++ [(state, offset)])).
Proof.
  intros F0 F1 F2 F3 L0 L1 L2 L3 Hfuel. split.
  - assert (Hfull : full_pages fetch state 0 [p0; p1; p2]).
    { intros j p Hj. unfold CHUNK_SIZE.
      destruct j as [|[|[|j]]]; cbn in Hj.
      - injection Hj as <-. split; [exact F0 | lia].
      - injection Hj as <-. split; [exact F1 | lia].
      - injection Hj as <-. split; [exact F2 | lia].
      - destruct j; discriminate. }
    rewrite (@paginate_ends fetch fuel state [p0; p1; p2] p3 Hfull).
    + cbn [flat_map length]. rewrite <- !app_assoc. cbn [app].
      unfold offsets, CHUNK_SIZE. reflexivity.
    + right. unfold CHUNK_SIZE. split; [exact F3 | lia].
    + cbn [length]. lia.
  - intros offset p result log n Hp Hne Hlen. rewrite paginate_S, Hp.
    destruct p as [|x p]; [congruence|].
    destruct (Nat.ltb_spec (length (x :: p)) CHUNK_SIZE) as [_|Hge];
      [reflexivity | lia].
Qed.

(** C8. When the request after some full pages of a state fails, the records
    of the earlier states and of those pages are kept, and the later states
    contribute exactly what they contribute on their own: each of them is
    still asked from offset 0. *)
Theorem fetch_failure_is_local
    (fetch : string -> nat -> response) (fuel : nat)
    (pre : list string) (state : string) (post : list string)
    (pages : list (list record))
    (r1 r2 : list record) (l1 l2 : list (string * nat)) :
  for_states fetch fuel pre [] [] = Some (r1, l1) ->
  full_pages fetch state 0 pages ->
  fetch state (length pages * CHUNK_SIZE) = FetchError ->
  length pages < fuel ->
  for_states fetch fuel post [] [] = Some (r2, l2) ->
  for_states fetch fuel (pre ++ state :: post) [] [] =
    Some (r1 ++ flat_map (filter in_filter) pages ++ r2,
          l1 ++ offsets state 0 (S (length pages)) ++ l2)
  /\ (forall s, In s post -> In (s, 0) l2).
Proof.
  intros Hpre Hfull Hfail Hfuel Hpost. split.
  - rewrite for_states_app, Hpre. cbn [for_states].
    rewrite (@paginate_ends fetch fuel state pages [] Hfull) by auto.
    rewrite for_states_acc, Hpost. cbn [filter]. now rewrite app_nil_r.
  - intros s Hs. eapply for_states_first; eassumption.
Qed.

(** C10. A record without a ["pri_spec"] key, or with a null one, fails the
    membership test and is in no result of the extraction. *)
Theorem missing_specialty_excluded
    (fetch : string -> nat -> response) (fuel : nat)
    (raw : list record) (log : list (string * nat)) (x : record) :
  extract_cms_data fetch fuel = Some (raw, log) ->
  assoc "pri_spec" x = None \/ assoc "pri_spec" x = Some VNull ->
  in_filter x = false /\ ~ In x raw.
Proof.
  intros H Hx.
  assert (Hf : in_filter x = false).
  { unfold in_filter, dict_get. destruct Hx as [-> | ->]; reflexivity. }
  split; [exact Hf|]. intro Hin.
  unfold extract_cms_data in H. apply for_states_shape in H.
  destruct H as [counts [_ [_ [_ ->]]]].
  pose proof (filtered_pages_allowed fetch log) as Hall.
  rewrite Forall_forall in Hall. apply Hall in Hin. congruence.
Qed.

(** ** Theorems on the split *)

Lemma column_of_labelled label df :
  column_of label df =
  match labelled label df with
  | [] => None
  | c :: _ => Some (snd c)
  end.
Proof.
  unfold column_of, labelled. induction (columns df) as [|[l vs] cols IH];
    [reflexivity|].
  cbn [assoc filter]. unfold has_label at 1. cbn [fst].
  destruct (String.eqb label l); [reflexivity | exact IH].
Qed.

Lemma filter_comm {A : Type} (f g : A -> bool) (l : list A) :
  filter f (filter g l) = filter g (filter f l).
Proof.
  induction l as [|x l IH]; [reflexivity|]. cbn [filter].
  destruct (f x) eqn:Ef, (g x) eqn:Eg; cbn [filter];
    rewrite ?Ef, ?Eg, IH; reflexivity.
Qed.

Section SplitTheorems.

Variable parse_number : string -> option Z.
Variable utcnow : Z.

(** The identifier column of each table. *)
Lemma npi_columns raw_list df_doctors df_sl :
  transform_data parse_number utcnow raw_list = Ok (df_doctors, df_sl) ->
  column_of "npi" df_sl = Some (map npi_key raw_list) /\
  column_of "npi" df_doctors =
    Some (pick (kept raw_list) (map npi_key raw_list)).
Proof.
  intro H. apply transform_data_tables in H. cbv zeta in H.
  destruct H as [Hcols [-> ->]].
  assert (Hnpi := npi_column parse_number utcnow raw_list
                    (Hcols "npi" (or_introl eq_refl))).
  set (P := prepared parse_number utcnow raw_list) in *.
  rewrite !column_of_labelled. split.
  - unfold labelled at 1. cbn [columns]. rewrite filter_comm.
    fold (labelled "npi" P).
    rewrite (filter_labelled (fun l => negb (mem l person_cols))).
    change (negb (mem "npi" person_cols)) with true.
    cbv iota. now rewrite Hnpi.
  - unfold labelled at 1. cbn [columns].
    rewrite (filter_map_label "npi" (fun c => pick (kept raw_list) (snd c))).
    change (@has_label (list value) "npi")
      with (fun c : column => String.eqb "npi" (fst c)).
    rewrite (filter_flat_map_labelled (String.eqb "npi")).
    change (filter (String.eqb "npi") doctor_cols) with ["npi"].
    cbn [flat_map]. rewrite app_nil_r, Hnpi. reflexivity.
Qed.

(** The identifiers the mask keeps are those of the input, each once. *)
Lemma kept_npi raw_list :
  NoDup (pick (kept raw_list) (map npi_key raw_list)) /\
  forall v, In v (pick (kept raw_list) (map npi_key raw_list)) <->
            In v (map npi_key raw_list).
Proof.
  destruct (first_seen_keys (map (fun r => [npi_key r]) raw_list) [])
    as [Hnd Hin].
  fold (kept raw_list) in Hnd, Hin.
  assert (E : pick (kept raw_list) (map (fun r => [npi_key r]) raw_list) =
              map (fun v => [v]) (pick (kept raw_list) (map npi_key raw_list))).
  { rewrite <- pick_map, map_map. reflexivity. }
  rewrite E in Hnd, Hin. split.
  - eapply NoDup_map_inv. exact Hnd.
  - intro v. specialize (Hin [v]). split.
    + apply pick_In.
    + intro Hv.
      assert (H1 : In [v] (map (fun r => [npi_key r]) raw_list)).
      { apply in_map_iff in Hv. destruct Hv as [r [<- Hr]].
        apply in_map_iff. now exists r. }
      assert (H2 : In [v] (map (fun v => [v])
                     (pick (kept raw_list) (map npi_key raw_list)))).
      { apply Hin. split; [exact H1 | intros []]. }
      apply in_map_iff in H2. destruct H2 as [w [[= ->] Hw]]. exact Hw.
Qed.

Lemma kept_length raw_list : length (kept raw_list) = length raw_list.
Proof. unfold kept. now rewrite first_seen_length, length_map. Qed.

Lemma pick_length_index {A : Type} (mask : list bool) : forall (l : list A) start,
  length l = length mask ->
  length (pick mask l) = length (pick mask (seq start (length mask))).
Proof.
  induction mask as [|b mask IH]; intros l start Hlen.
  - destruct l; reflexivity.
  - destruct l as [|x l]; [discriminate|]. injection Hlen as Hlen.
    cbn [length seq pick]. destruct b; cbn [length]; now rewrite (IH l (S start)).
Qed.

(** C1. Every identifier of the second table is the identifier of a row of
    the first. *)
Theorem locations_npi_has_doctor raw_list df_doctors df_sl :
  transform_data parse_number utcnow raw_list = Ok (df_doctors, df_sl) ->
  exists location_npi doctor_npi,
    column_of "npi" df_sl = Some location_npi /\
    column_of "npi" df_doctors = Some doctor_npi /\
    length location_npi = length (index df_sl) /\
    length doctor_npi = length (index df_doctors) /\
    forall v, In v location_npi -> In v doctor_npi.
Proof.
  intro H. destruct (npi_columns _ H) as [Hsl Hdoc].
  exists (map npi_key raw_list), (pick (kept raw_list) (map npi_key raw_list)).
  apply transform_data_tables in H. cbv zeta in H.
  destruct H as [_ [Hd Hl]].
  repeat split; try assumption.
  - rewrite Hl. cbn [index]. now rewrite length_map, length_seq.
  - rewrite Hd. cbn [index]. rewrite <- (kept_length raw_list).
    apply pick_length_index. now rewrite length_map, kept_length.
  - intros v Hv. now apply kept_npi.
Qed.

(** C5. The second table has one row per input record, in input order:
    row [i] is labelled [i], every column has as many cells as there are
    records, and row [i] is the location row of record [i]. *)
Theorem locations_one_row_per_record raw_list df_doctors df_sl :
  transform_data parse_number utcnow raw_list = Ok (df_doctors, df_sl) ->
  length (index df_sl) = length raw_list /\
  index df_sl = seq 0 (length raw_list) /\
  Forall (fun c => length (snd c) = length raw_list) (columns df_sl) /\
  forall i r, nth_error raw_list i = Some r ->
    row_at df_sl i = location_row parse_number utcnow (all_keys raw_list) r.
Proof.
  intro H. pose proof (transform_data_tables _ _ _ H) as T. cbv zeta in T.
  destruct T as [_ [_ Hl]]. repeat split.
  - rewrite Hl. cbn [index]. apply length_seq.
  - now rewrite Hl.
  - rewrite Hl. cbn [columns]. apply Forall_forall. intros c Hc.
    apply filter_In in Hc. destruct Hc as [Hc _].
    eapply prepared_lengths; eassumption.
  - intros i r Hi. eapply row_at_locations; eassumption.
Qed.

(** C2. On the empty list the lookup of the graduation-year column
    raises; a run whose every request fails extracts the empty list and
    ends with that exception. *)
Theorem transform_data_empty_raises :
  transform_data parse_number utcnow [] = Raise (KeyError ["graduation_year"])
  /\ extract_cms_data source_down 1 = Some ([], [("AL", 0); ("SD", 0)])
  /\ main source_down parse_number utcnow 1 =
     Some (Raise (KeyError ["graduation_year"])).
Proof. repeat split. Qed.

End SplitTheorems.

(** ** Cells *)

Lemma renamed_bq (k : string) :
  renamed rename_map k = "bq_load_dttm" -> k = "bq_load_dttm".
Proof.
  intro H. apply renamed_cases in H. destruct H as [H|[H _]]; [|exact H].
  cbn in H. repeat (destruct H as [H|H]; [now inversion H|]). destruct H.
Qed.

Lemma renamed_unmapped (k : string) :
  assoc k rename_map = None -> renamed rename_map k = k.
Proof. unfold renamed. now intros ->. Qed.

Lemma person_cols_doctor (label : string) :
  In label person_cols -> In label doctor_cols.
Proof. unfold person_cols. intro H. now apply filter_In in H. Qed.

Lemma dict_get_key (k : string) (r : record) :
  dict_get k r <> VNull -> In k (map fst r).
Proof.
  unfold dict_get. intro H. destruct (assoc k r) as [v|] eqn:E; [|congruence].
  apply assoc_In in E. apply in_map_iff. now exists (k, v).
Qed.

Lemma all_keys_In (raw_list : list record) (r : record) (k : string) :
  In r raw_list -> In k (map fst r) -> In k (all_keys raw_list).
Proof.
  intros Hr Hk. unfold all_keys. apply unique_In. apply in_flat_map.
  now exists r.
Qed.

Section CellFacts.

Variable parse_number : string -> option Z.
Variable utcnow : Z.

Lemma final_cell_not_empty (label : string) (v : value) :
  final_cell parse_number utcnow label v <> VStr "".
Proof.
  unfold final_cell. destruct (String.eqb label "bq_load_dttm"); [discriminate|].
  destruct (mem label _).
  - unfold coerce. destruct (replace_value _ _ v); try discriminate.
    destruct (parse_number s); discriminate.
  - unfold replace_value. destruct (value_eq_dec v (VStr "")); congruence.
Qed.

Lemma final_cell_empty (label : string) :
  label <> "bq_load_dttm" ->
  final_cell parse_number utcnow label (VStr "") = VNull.
Proof.
  intro H. unfold final_cell. apply String.eqb_neq in H. rewrite H.
  destruct (mem label _); reflexivity.
Qed.

Lemma full_row_In keys r label v :
  In (label, v) (full_row parse_number utcnow keys r) ->
  v = VTime utcnow \/ exists k, v = final_cell parse_number utcnow label (dict_get k r).
Proof.
  unfold full_row. intro H. apply in_app_or in H. destruct H as [H|H].
  - apply in_map_iff in H. destruct H as [k [[= <- <-] _]]. right. now exists k.
  - destruct (mem _ _); [destruct H|]. destruct H as [[= <- <-]|[]]. now left.
Qed.

Lemma full_row_key keys r k :
  In k keys ->
  In (renamed rename_map k,
      final_cell parse_number utcnow (renamed rename_map k) (dict_get k r))
     (full_row parse_number utcnow keys r).
Proof.
  intro H. unfold full_row. apply in_or_app. left.
  apply in_map_iff. now exists k.
Qed.

Lemma doctor_row_In keys r c :
  In c (doctor_row parse_number utcnow keys r) <->
  In c (full_row parse_number utcnow keys r) /\ In (fst c) doctor_cols.
Proof.
  unfold doctor_row. rewrite in_flat_map. split.
  - intros [l [Hl Hc]]. apply filter_In in Hc. destruct Hc as [Hc E].
    apply String.eqb_eq in E. subst. now split.
  - intros [Hc Hl]. exists (fst c). split; [exact Hl|].
    apply filter_In. split; [exact Hc | apply String.eqb_refl].
Qed.

Lemma location_row_In keys r c :
  In c (location_row parse_number utcnow keys r) <->
  In c (full_row parse_number utcnow keys r) /\ ~ In (fst c) person_cols.
Proof.
  unfold location_row. rewrite filter_In, negb_true_iff, mem_false. tauto.
Qed.

(** The cells of a row under a label that one raw key feeds. *)
Lemma location_row_label keys r k label :
  filter (fun k => String.eqb label (renamed rename_map k)) keys = [k] ->
  label <> "bq_load_dttm" ->
  ~ In label person_cols ->
  filter (has_label label) (location_row parse_number utcnow keys r) =
  [(label, final_cell parse_number utcnow label (dict_get k r))].
Proof.
  intros Hk Hb Hp. unfold location_row. rewrite filter_comm.
  unfold full_row. rewrite filter_app.
  replace (filter (has_label label) (if mem _ _ then [] else _))
    with (@nil (string * value)).
  - rewrite app_nil_r, filter_map_swap.
    unfold has_label at 1. cbn [fst]. rewrite Hk. cbn [map filter fst].
    assert (E : renamed rename_map k = label).
    { assert (Hin : In k (filter (fun k => String.eqb label (renamed rename_map k)) keys))
        by (rewrite Hk; now left).
      apply filter_In in Hin. destruct Hin as [_ Hin].
      apply String.eqb_eq in Hin. now symmetry. }
    rewrite E. apply mem_false in Hp. now rewrite Hp.
  - destruct (mem _ _); [reflexivity|]. cbn [filter]. unfold has_label.
    cbn [fst]. apply String.eqb_neq in Hb. now rewrite Hb.
Qed.

Lemma getitem_series label df arg numeric :
  getitem label df = Ok arg ->
  to_numeric parse_number arg = Ok numeric ->
  exists c, labelled label df = [c].
Proof.
  unfold getitem. destruct (labelled label df) as [|c [|c' rest]];
    intros Hg Hn; try discriminate.
  - now exists c.
  - injection Hg as <-. discriminate.
Qed.

Lemma map_singleton {A B : Type} (f : A -> B) (l : list A) (y : B) :
  map f l = [y] -> exists x, l = [x].
Proof.
  destruct l as [|x [|x' l]]; try discriminate. intros _. now exists x.
Qed.

Lemma fst_coerce_column label (c : column) :
  fst (coerce_column parse_number label c) = fst c.
Proof. unfold coerce_column. now destruct (has_label label c). Qed.

(** In a successful run each numeric label is fed by exactly one raw
    key. *)
Lemma numeric_columns_unique raw_list df_doctors df_sl :
  transform_data parse_number utcnow raw_list = Ok (df_doctors, df_sl) ->
  (exists k, filter (fun k => String.eqb "graduation_year" (renamed rename_map k))
                    (all_keys raw_list) = [k]) /\
  (exists k, filter (fun k => String.eqb "number_of_group_members"
                                         (renamed rename_map k))
                    (all_keys raw_list) = [k]).
Proof.
  unfold transform_data. rewrite normalized_frame.
  set (df2 := {| index := _; columns := _ |}).
  destruct (getitem "graduation_year" df2) as [arg1|] eqn:G1; [|discriminate].
  cbn [bind].
  destruct (to_numeric parse_number arg1) as [num1|] eqn:N1; [|discriminate].
  cbn [bind]. rewrite (setitem_numeric _ _ _ G1 N1).
  set (df3 := {| index := _; columns := _ |}).
  destruct (getitem "number_of_group_members" df3) as [arg2|] eqn:G2;
    [|discriminate].
  cbn [bind].
  destruct (to_numeric parse_number arg2) as [num2|] eqn:N2; [|discriminate].
  intros _. split.
  - destruct (getitem_series _ _ G1 N1) as [c Hc].
    unfold labelled, df2 in Hc. cbn [columns] in Hc.
    rewrite filter_map_swap in Hc. apply map_singleton in Hc. exact Hc.
  - destruct (getitem_series _ _ G2 N2) as [c Hc].
    unfold labelled, df3, df2 in Hc. cbn [columns] in Hc.
    rewrite !filter_map_swap in Hc. apply map_singleton in Hc.
    destruct Hc as [c' Hc]. apply map_singleton in Hc.
    destruct Hc as [k Hk]. exists k.
    rewrite <- Hk. apply filter_ext. intro k'. unfold has_label.
    now rewrite fst_coerce_column.
Qed.

End CellFacts.



Section MoreSplitTheorems.

Variable parse_number : string -> option Z.
Variable utcnow : Z.


(** C3, as the code has it.  A field the rename map does not know keeps its
    name.  Unless that name is a doctor column, the field is no column of
    the first table; it is a column of the second table, where row [i]
    holds the string record [i] has for it, the empty string as a missing
    value; a field that is itself named as one of the two numeric columns
    is coerced as that column is. *)
Theorem unknown_field_fate raw_list df_doctors df_sl (f : string) :
  transform_data parse_number utcnow raw_list = Ok (df_doctors, df_sl) ->
  (exists r, In r raw_list /\ In f (map fst r)) ->
  assoc f rename_map = None ->
  ~ In f doctor_cols ->
  ~ In f (names df_doctors) /\
  In f (names df_sl) /\
  forall i r s, nth_error raw_list i = Some r -> dict_get f r = VStr s ->
    In (f, if mem f ["graduation_year"; "number_of_group_members"]
           then coerce parse_number (replace_value (VStr "") VNull (VStr s))
           else replace_value (VStr "") VNull (VStr s))
       (row_at df_sl i).
Proof.
  intros H [r0 [Hr0 Hf]] Hun Hdoc.
  pose proof (transform_data_tables _ _ _ H) as T. cbv zeta in T.
  destruct T as [_ [Hd Hl]].
  assert (Hk : In f (all_keys raw_list)) by (eapply all_keys_In; eassumption).
  assert (Hp : ~ In f person_cols).
  { intro Hp. apply Hdoc. now apply person_cols_doctor. }
  split; [|split].
  - rewrite Hd. unfold names. cbn [columns]. rewrite map_map. cbn [fst].
    intro Hin. apply in_map_iff in Hin. destruct Hin as [c [Hc Hin]].
    apply in_flat_map in Hin. destruct Hin as [l [Hl' Hin]].
    apply filter_In in Hin. destruct Hin as [_ Hin].
    apply String.eqb_eq in Hin. apply Hdoc. congruence.
  - rewrite Hl. unfold names. cbn [columns].
    apply in_map_iff. exists (final_column parse_number utcnow raw_list f).
    unfold final_column at 1. cbn [fst]. split; [now apply renamed_unmapped|].
    apply filter_In. split.
    + unfold prepared. cbn [columns]. apply in_or_app. left. now apply in_map.
    + unfold final_column. cbn [fst]. rewrite (renamed_unmapped _ Hun).
      apply negb_true_iff. now apply mem_false.
  - intros i r s Hi Hs. rewrite (row_at_locations _ _ _ _ H Hi).
    apply location_row_In. cbn [fst]. split; [|exact Hp].
    pose proof (@full_row_key parse_number utcnow _ r _ Hk) as Hin.
    rewrite (renamed_unmapped _ Hun), Hs in Hin.
    unfold final_cell in Hin.
    destruct (String.eqb_spec f "bq_load_dttm") as [E|_]; [|exact Hin].
    exfalso. apply Hdoc. rewrite E. cbn. tauto.
Qed.

End MoreSplitTheorems.

Lemma filter_label_flat_map {A : Type} (f : string -> bool)
    (row : list (string * A)) (labels : list string) :
  filter (fun c => f (fst c))
         (flat_map (fun l => filter (has_label l) row) labels) =
  flat_map (fun l => filter (has_label l) row) (filter f labels).
Proof.
  induction labels as [|l labels IH]; [reflexivity|].
  cbn [flat_map]. rewrite filter_app, IH. cbn [filter].
  assert (E : filter (fun c => f (fst c)) (filter (has_label l) row) =
              if f l then filter (has_label l) row else []).
  { destruct (f l) eqn:Fl.
    - apply forallb_filter_id. apply forallb_forall. intros c Hc.
      apply filter_In in Hc. destruct Hc as [_ Hc].
      apply String.eqb_eq in Hc. now rewrite <- Hc.
    - apply filter_all_false. intros c Hc. apply filter_In in Hc.
      destruct Hc as [_ Hc]. apply String.eqb_eq in Hc. now rewrite <- Hc. }
  rewrite E. destruct (f l); reflexivity.
Qed.

Lemma full_row_stamp (parse_number : string -> option Z) (utcnow : Z)
    (keys : list string) (r : record) :
  NoDup keys ->
  filter (has_label "bq_load_dttm") (full_row parse_number utcnow keys r) =
  [("bq_load_dttm", VTime utcnow)].
Proof.
  intro Hnd. unfold full_row. rewrite filter_app, filter_map_swap.
  assert (E : filter (fun k => has_label "bq_load_dttm"
                (renamed rename_map k,
                 final_cell parse_number utcnow (renamed rename_map k) (dict_get k r)))
              keys = filter (String.eqb "bq_load_dttm") keys).
  { apply filter_ext. intro k. unfold has_label. cbn [fst].
    destruct (String.eqb_spec "bq_load_dttm" (renamed rename_map k)) as [E|E].
    - symmetry in E. apply renamed_bq in E. subst. reflexivity.
    - destruct (String.eqb_spec "bq_load_dttm" k) as [<-|_]; [|reflexivity].
      exfalso. apply E. reflexivity. }
  rewrite E.
  destruct (mem "bq_load_dttm" (map (renamed rename_map) keys)) eqn:M.
  - apply mem_In, in_map_iff in M. destruct M as [k [Hk Hin]].
    apply renamed_bq in Hk. subst k.
    rewrite (@filter_eqb_NoDup "bq_load_dttm" keys Hnd Hin). reflexivity.
  - rewrite filter_all_false; [reflexivity|].
    intros k Hk. destruct (String.eqb_spec "bq_load_dttm" k) as [<-|_];
      [|reflexivity].
    apply mem_false in M. exfalso. apply M.
    apply in_map_iff. exists "bq_load_dttm". now split.
Qed.

Section CoercionTheorems.

Variable parse_number : string -> option Z.
Variable utcnow : Z.

(** The numeric cell of a row: the one cell under the numeric label, read
    from the string the record has for the source field. *)
Lemma numeric_cell raw_list df_doctors df_sl i r k label s :
  transform_data parse_number utcnow raw_list = Ok (df_doctors, df_sl) ->
  nth_error raw_list i = Some r ->
  In (k, label) [("grd_yr", "graduation_year");
                 ("num_org_mem", "number_of_group_members")] ->
  dict_get k r = VStr s ->
  filter (has_label label) (row_at df_sl i) =
  [(label, coerce parse_number (replace_value (VStr "") VNull (VStr s)))].
Proof.
  intros H Hi Hk Hs.
  rewrite (row_at_locations _ _ _ _ H Hi).
  assert (Hkey : In k (all_keys raw_list)).
  { eapply all_keys_In; [eapply nth_error_In; eassumption|].
    apply dict_get_key. rewrite Hs. discriminate. }
  destruct (numeric_columns_unique _ _ _ H) as [[kg Hg] [km Hm]].
  destruct Hk as [[= <- <-]|[[= <- <-]|[]]].
  - assert (E : In "grd_yr" [kg]).
    { rewrite <- Hg. apply filter_In. split; [exact Hkey | reflexivity]. }
    destruct E as [->|[]].
    rewrite (location_row_label _ _ _ _ Hg);
      [now rewrite Hs | discriminate |].
    cbn. intuition discriminate.
  - assert (E : In "num_org_mem" [km]).
    { rewrite <- Hm. apply filter_In. split; [exact Hkey | reflexivity]. }
    destruct E as [->|[]].
    rewrite (location_row_label _ _ _ _ Hm);
      [now rewrite Hs | discriminate |].
    cbn. intuition discriminate.
Qed.

(** C9, as the code has it.  In the row of a record, the graduation year
    ["N/A"] or [""] is a missing value and ["2005"] the number 2005; a
    numeric field that cannot be read is a missing value; an empty string
    under any field but the load timestamp is a missing value wherever
    the field is a column; no cell of either table is the empty string;
    and the load timestamp column of both tables holds the timestamp of
    the run, whatever the record had. *)
Theorem coercion_and_empty_strings raw_list df_doctors df_sl i r :
  parse_number "2005" = Some 2005%Z ->
  parse_number "N/A" = None ->
  transform_data parse_number utcnow raw_list = Ok (df_doctors, df_sl) ->
  nth_error raw_list i = Some r ->
  (dict_get "grd_yr" r = VStr "N/A" \/ dict_get "grd_yr" r = VStr "" ->
   filter (has_label "graduation_year") (row_at df_sl i) =
   [("graduation_year", VNull)]) /\
  (dict_get "grd_yr" r = VStr "2005" ->
   filter (has_label "graduation_year") (row_at df_sl i) =
   [("graduation_year", VNum 2005)]) /\
  (forall k label s,
     In (k, label) [("grd_yr", "graduation_year");
                    ("num_org_mem", "number_of_group_members")] ->
     dict_get k r = VStr s -> parse_number s = None ->
     filter (has_label label) (row_at df_sl i) = [(label, VNull)]) /\
  (forall k, k <> "bq_load_dttm" -> dict_get k r = VStr "" ->
     (~ In (renamed rename_map k) person_cols ->
      In (renamed rename_map k, VNull) (row_at df_sl i)) /\
     (forall pos, nth_error (index df_doctors) pos = Some i ->
        In (renamed rename_map k) doctor_cols ->
        In (renamed rename_map k, VNull) (row_at df_doctors pos))) /\
  (forall label, ~ In (label, VStr "") (row_at df_sl i)) /\
  (forall pos label, nth_error (index df_doctors) pos = Some i ->
     ~ In (label, VStr "") (row_at df_doctors pos)) /\
  filter (has_label "bq_load_dttm") (row_at df_sl i) =
    [("bq_load_dttm", VTime utcnow)] /\
  (forall pos, nth_error (index df_doctors) pos = Some i ->
     filter (has_label "bq_load_dttm") (row_at df_doctors pos) =
     [("bq_load_dttm", VTime utcnow)]).
Proof.
  intros H2005 HNA H Hi.
  assert (Hnum := fun k label s => @numeric_cell _ _ _ i r k label s H Hi).
  assert (Hrow := row_at_locations _ _ _ _ H Hi).
  assert (Hdoc : forall pos, nth_error (index df_doctors) pos = Some i ->
            row_at df_doctors pos =
            doctor_row parse_number utcnow (all_keys raw_list) r).
  { intros pos Hpos. destruct (row_at_doctors _ _ _ _ H Hpos) as [r' [Hr' E]].
    congruence. }
  assert (Hempty : forall label keys,
            ~ In (label, VStr "") (full_row parse_number utcnow keys r)).
  { intros label keys Hin. apply full_row_In in Hin.
    destruct Hin as [Hin|[k Hin]]; [discriminate|].
    symmetry in Hin. now apply final_cell_not_empty in Hin. }
  assert (Hnd : NoDup (all_keys raw_list)) by apply unique_NoDup.
  split; [|split; [|split; [|split; [|split; [|split; [|split]]]]]].
  - intros [Hv|Hv].
    + rewrite (Hnum "grd_yr" _ _ (or_introl eq_refl) Hv). cbn. now rewrite HNA.
    + now rewrite (Hnum "grd_yr" _ _ (or_introl eq_refl) Hv).
  - intro Hv. rewrite (Hnum "grd_yr" _ _ (or_introl eq_refl) Hv). cbn.
    now rewrite H2005.
  - intros k label s Hk Hv Hs. rewrite (Hnum k label s Hk Hv).
    unfold replace_value. destruct (value_eq_dec (VStr s) (VStr ""));
      [reflexivity|]. cbn. now rewrite Hs.
  - intros k Hk Hv.
    assert (Hin : In (renamed rename_map k, VNull)
                     (full_row parse_number utcnow (all_keys raw_list) r)).
    { rewrite <- (@final_cell_empty parse_number utcnow (renamed rename_map k))
        by (intro E; apply renamed_bq in E; contradiction).
      rewrite <- Hv. apply full_row_key.
      eapply all_keys_In; [eapply nth_error_In; eassumption|].
      apply dict_get_key. rewrite Hv. discriminate. }
    split.
    + intro Hp. rewrite Hrow. apply location_row_In. now split.
    + intros pos Hpos Hd. rewrite (Hdoc pos Hpos). apply doctor_row_In.
      now split.
  - intros label Hin. rewrite Hrow in Hin. apply location_row_In in Hin.
    destruct Hin as [Hin _]. now apply Hempty in Hin.
  - intros pos label Hpos Hin. rewrite (Hdoc pos Hpos) in Hin.
    apply doctor_row_In in Hin. destruct Hin as [Hin _].
    now apply Hempty in Hin.
  - rewrite Hrow. unfold location_row.
    rewrite filter_comm, (full_row_stamp parse_number utcnow r Hnd).
    reflexivity.
  - intros pos Hpos. rewrite (Hdoc pos Hpos). unfold doctor_row.
    change (@has_label value "bq_load_dttm")
      with (fun c : string * value => String.eqb "bq_load_dttm" (fst c)).
    rewrite (filter_label_flat_map (String.eqb "bq_load_dttm")).
    change (filter (String.eqb "bq_load_dttm") doctor_cols) with ["bq_load_dttm"].
    cbn [flat_map]. rewrite app_nil_r.
    apply (full_row_stamp parse_number utcnow r Hnd).
Qed.

End CoercionTheorems.

(** ** The pipeline *)

(** C6. The result of the extraction holds only records whose specialty is
    in the allow-list; it is what the requests served, filtered, in the order
    of the requests, which go state by state (["AL"], then ["SD"]) and page
    by page; and every row of either table the run hands to the loader is
    derived from a record of that result, hence from a record with an
    allowed specialty. *)
Theorem extracted_records_are_allowed
    (fetch : string -> nat -> response) (fuel : nat)
    (raw : list record) (log : list (string * nat)) :
  extract_cms_data fetch fuel = Some (raw, log) ->
  Forall (fun x => In (dict_get "pri_spec" x) SPECIALTY_FILTER) raw /\
  (exists n_al n_sd,
     0 < n_al /\ 0 < n_sd /\
     log = offsets "AL" 0 n_al ++ offsets "SD" 0 n_sd) /\
  raw = flat_map (fun q => filter in_filter (served fetch q)) log /\
  forall parse_number utcnow df_doctors df_sl,
    main fetch parse_number utcnow fuel = Some (Ok (df_doctors, df_sl)) ->
    (forall pos i, nth_error (index df_sl) pos = Some i ->
       exists x, nth_error raw i = Some x /\
         In (dict_get "pri_spec" x) SPECIALTY_FILTER /\
         row_at df_sl i = location_row parse_number utcnow (all_keys raw) x) /\
    (forall pos i, nth_error (index df_doctors) pos = Some i ->
       exists x, nth_error raw i = Some x /\
         In (dict_get "pri_spec" x) SPECIALTY_FILTER /\
         row_at df_doctors pos = doctor_row parse_number utcnow (all_keys raw) x).
Proof.
  intro H. unfold extract_cms_data in H.
  destruct (for_states_shape _ _ _ H) as [counts [Hlen [Hpos [Hlog Hraw]]]].
  assert (Hall : Forall (fun x => In (dict_get "pri_spec" x) SPECIALTY_FILTER) raw).
  { rewrite Hraw. eapply Forall_impl; [|apply filtered_pages_allowed].
    intros x Hx. now apply in_filter_spec. }
  split; [exact Hall|]. split; [|split; [exact Hraw|]].
  - destruct counts as [|n_al [|n_sd [|]]]; try discriminate.
    exists n_al, n_sd. inversion Hpos as [|? ? Hal Hrest]; subst.
    inversion Hrest; subst. repeat split; try assumption.
    cbn. now rewrite app_nil_r.
  - intros parse_number utcnow df_doctors df_sl T.
    unfold main, extract_cms_data in T. rewrite H in T. injection T as T.
    rewrite Forall_forall in Hall. split.
    + intros pos i Hi.
      destruct (transform_data_tables _ _ _ T) as [_ [_ Hix]].
      rewrite Hix in Hi. cbn [index] in Hi. apply nth_error_In, in_seq in Hi.
      destruct (nth_error raw i) as [x|] eqn:Hx;
        [|apply nth_error_None in Hx; lia].
      exists x. repeat split; [|eapply row_at_locations; eassumption].
      apply Hall. eapply nth_error_In; eassumption.
    + intros pos i Hi.
      destruct (row_at_doctors _ _ _ _ T Hi) as [x [Hx Hrow]].
      exists x. repeat split; [| |exact Hrow]; [exact Hx|].
      apply Hall. eapply nth_error_In; eassumption.
Qed.

(** ** The properties at work on the sample data *)

Lemma locations_npi_has_doctor_witness :
  exists location_npi doctor_npi,
    column_of "npi" (snd (tables_of (transform_data parse_decimal 7 sample_raw)))
      = Some location_npi /\
    column_of "npi" (fst (tables_of (transform_data parse_decimal 7 sample_raw)))
      = Some doctor_npi /\
    length location_npi =
      length (index (snd (tables_of (transform_data parse_decimal 7 sample_raw)))) /\
    length doctor_npi =
      length (index (fst (tables_of (transform_data parse_decimal 7 sample_raw)))) /\
    forall v, In v location_npi -> In v doctor_npi.
Proof.
  apply (@locations_npi_has_doctor parse_decimal 7 sample_raw).
  vm_compute. reflexivity.
Defined.

Lemma locations_one_row_per_record_witness :
  length (index (snd (tables_of (transform_data parse_decimal 7 sample_raw)))) = 3.
Proof.
  apply (@locations_one_row_per_record parse_decimal 7 sample_raw
           (fst (tables_of (transform_data parse_decimal 7 sample_raw)))).
  vm_compute. reflexivity.
Defined.

(** Records whose values are all strings, checked entry by entry. *)
Ltac all_strings :=
  let k := fresh "k" in let v := fresh "v" in let Hin := fresh "Hin" in
  let Hk := fresh "Hk" in let Hv := fresh "Hv" in
  intros k v Hin; simpl in Hin;
  repeat (destruct Hin as [Hin|Hin];
          [injection Hin as Hk Hv; subst v; eexists; reflexivity|]);
  destruct Hin.


(** The claim C3 as written fails: a field the rename map does not know is a
    column of the second table. *)
Lemma unknown_field_reaches_locations :
  exists df_doctors df_sl,
    transform_data parse_decimal 7 [sample_extra] = Ok (df_doctors, df_sl) /\
    In "extra" (map fst sample_extra) /\
    assoc "extra" rename_map = None /\
    In "extra" (names df_sl) /\
    In ("extra", VStr "x") (row_at df_sl 0).
Proof.
  eexists. eexists. split; [vm_compute; reflexivity|].
  split; [|split; [reflexivity|split]]; cbn; tauto.
Qed.

Lemma unknown_field_fate_witness :
  ~ In "extra" (names (fst (tables_of (transform_data parse_decimal 7 [sample_extra]))))
  /\ In "extra" (names (snd (tables_of (transform_data parse_decimal 7 [sample_extra]))))
  /\ In ("extra", VStr "x")
        (row_at (snd (tables_of (transform_data parse_decimal 7 [sample_extra]))) 0).
Proof.
  destruct (@unknown_field_fate parse_decimal 7 [sample_extra]
              (fst (tables_of (transform_data parse_decimal 7 [sample_extra])))
              (snd (tables_of (transform_data parse_decimal 7 [sample_extra])))
              "extra") as [H1 [H2 H3]].
  - vm_compute. reflexivity.
  - exists sample_extra. split; [now left | cbn; tauto].
  - reflexivity.
  - cbn. intuition discriminate.
  - split; [exact H1|]. split; [exact H2|].
    exact (H3 0 sample_extra "x" eq_refl eq_refl).
Defined.

(** The claim C9 as written fails on the load timestamp: an empty string
    under that field is not a missing value in the tables, it is the
    timestamp of the run. *)
Lemma empty_load_timestamp_is_stamped :
  exists df_doctors df_sl,
    transform_data parse_decimal 7 [sample_stamped] = Ok (df_doctors, df_sl) /\
    dict_get "bq_load_dttm" sample_stamped = VStr "" /\
    filter (has_label "bq_load_dttm") (row_at df_sl 0) = [("bq_load_dttm", VTime 7)] /\
    filter (has_label "bq_load_dttm") (row_at df_doctors 0) = [("bq_load_dttm", VTime 7)].
Proof.
  eexists. eexists. split; [vm_compute; reflexivity|].
  repeat split.
Qed.

Lemma coercion_and_empty_strings_witness :
  filter (has_label "graduation_year")
    (row_at (snd (tables_of (transform_data parse_decimal 7 sample_raw))) 0)
  = [("graduation_year", VNum 2005)].
Proof.
  assert (H1 : parse_decimal "2005" = Some 2005%Z) by reflexivity.
  assert (H2 : parse_decimal "N/A" = None) by reflexivity.
  assert (H3 : transform_data parse_decimal 7 sample_raw =
               Ok (fst (tables_of (transform_data parse_decimal 7 sample_raw)),
                   snd (tables_of (transform_data parse_decimal 7 sample_raw))))
    by (vm_compute; reflexivity).
  assert (H4 : nth_error sample_raw 0 =
               Some (sample (VStr "111") (VStr "2005") orthopedic))
    by reflexivity.
  assert (H5 : dict_get "grd_yr" (sample (VStr "111") (VStr "2005") orthopedic)
               = VStr "2005") by reflexivity.
  exact (proj1 (proj2 (@coercion_and_empty_strings parse_decimal 7
                         sample_raw _ _ 0 _ H1 H2 H3 H4)) H5).
Defined.

Lemma pagination_stops_on_short_page_witness :
  paginate source_3400 4 "AL" 0 [] [] =
  Some (filter in_filter page_1000 ++ filter in_filter page_1000
        ++ filter in_filter page_1000 ++ filter in_filter page_400,
        [("AL", 0); ("AL", 1000); ("AL", 2000); ("AL", 3000)]).
Proof.
  assert (F0 : source_3400 "AL" 0 = Page page_1000) by reflexivity.
  assert (F1 : source_3400 "AL" 1000 = Page page_1000) by reflexivity.
  assert (F2 : source_3400 "AL" 2000 = Page page_1000) by reflexivity.
  assert (F3 : source_3400 "AL" 3000 = Page page_400) by reflexivity.
  assert (L0 : length page_1000 = 1000) by apply repeat_length.
  assert (L3 : length page_400 = 400) by apply repeat_length.
  assert (H4 : 4 <= 4) by lia.
  exact (proj1 (@pagination_stops_on_short_page source_3400 "AL"
                  page_1000 page_1000 page_1000 page_400 4
                  F0 F1 F2 F3 L0 L0 L0 L3 H4)).
Defined.

Lemma fetch_failure_is_local_witness :
  for_states source_failing 2 ["AL"; "SD"] [] [] =
  Some (filter in_filter page_1000 ++ [sample (VStr "222") (VStr "") radiology],
        [("AL", 0); ("AL", 1000); ("SD", 0)]).
Proof.
  assert (H1 : for_states source_failing 2 [] [] [] = Some ([], []))
    by reflexivity.
  assert (H2 : full_pages source_failing "AL" 0 [page_1000]).
  { intros [|[|j]] p Hj; cbn [nth_error] in Hj; try discriminate.
    injection Hj as <-. split; [reflexivity|].
    unfold CHUNK_SIZE, page_1000. rewrite repeat_length. apply le_n. }
  assert (H3 : source_failing "AL" (length [page_1000] * CHUNK_SIZE) = FetchError)
    by reflexivity.
  assert (H4 : length [page_1000] < 2) by (cbn [length]; lia).
  assert (H5 : for_states source_failing 2 ["SD"] [] [] =
               Some ([sample (VStr "222") (VStr "") radiology], [("SD", 0)]))
    by reflexivity.
  pose proof (proj1 (@fetch_failure_is_local source_failing 2 [] "AL" ["SD"]
                       [page_1000] []
                       [sample (VStr "222") (VStr "") radiology]
                       [] [("SD", 0)] H1 H2 H3 H4 H5)) as H.
  rewrite !app_nil_l in H.
  replace (flat_map (filter in_filter) [page_1000])
    with (filter in_filter page_1000) in H by (symmetry; apply app_nil_r).
  replace (offsets "AL" 0 (S (length [page_1000])))
    with [("AL", 0); ("AL", 1000)] in H by reflexivity.
  exact H.
Defined.

Lemma missing_specialty_excluded_witness :
  in_filter sample_no_specialty = false /\
  ~ In sample_no_specialty
       [ sample (VStr "111") (VStr "2005") orthopedic;
         sample (VStr "111") (VStr "N/A") radiology ].
Proof.
  apply (@missing_specialty_excluded source_small 3 _
           [("AL", 0); ("SD", 0)] sample_no_specialty).
  - vm_compute. reflexivity.
  - left. reflexivity.
Defined.

Lemma extracted_records_are_allowed_witness :
  Forall (fun x => In (dict_get "pri_spec" x) SPECIALTY_FILTER)
    [ sample (VStr "111") (VStr "2005") orthopedic;
      sample (VStr "111") (VStr "N/A") radiology ].
Proof.
  apply (@extracted_records_are_allowed source_small 3 _ [("AL", 0); ("SD", 0)]).
  vm_compute. reflexivity.
Defined.

(** * Further properties *)

(** ** The outcome of the transformation *)

Section OutcomeFacts.

Variable parse_number : string -> option Z.
Variable utcnow : Z.

(** The columns a label has once the fields are renamed. *)
Lemma labelled_normalized label raw_list :
  labelled label
    {| index := seq 0 (length raw_list);
       columns :=
         map (fun k => (renamed rename_map k,
                        map (fun r => replace_value (VStr "") VNull (dict_get k r))
                            raw_list))
             (all_keys raw_list) |} =
  map (fun k => (renamed rename_map k,
                 map (fun r => replace_value (VStr "") VNull (dict_get k r))
                     raw_list))
      (feeds label raw_list).
Proof.
  unfold labelled, feeds. cbn [columns]. now rewrite filter_map_swap.
Qed.

Lemma stamped_prepared raw_list :
  setitem_scalar "bq_load_dttm" (VTime utcnow)
    {| index := seq 0 (length raw_list);
       columns :=
         map (coerce_column parse_number "number_of_group_members")
           (map (coerce_column parse_number "graduation_year")
              (map (fun k => (renamed rename_map k,
                              map (fun r => replace_value (VStr "") VNull
                                              (dict_get k r)) raw_list))
                   (all_keys raw_list))) |} =
  prepared parse_number utcnow raw_list.
Proof.
  unfold setitem_scalar, setitem, prepared, names.
  cbn [index columns]. rewrite length_seq. f_equal.
  rewrite !map_map.
  pose proof (final_column_steps parse_number utcnow raw_list) as Hk.
  cbv zeta in Hk.
  replace (map (fun x => fst _) (all_keys raw_list))
    with (map (renamed rename_map) (all_keys raw_list))
    by (apply map_ext; intro k; symmetry; apply (Hk k)).
  destruct (mem "bq_load_dttm" (map (renamed rename_map) (all_keys raw_list)))
    eqn:Hmem.
  - rewrite app_nil_r. apply map_ext. intro k. apply (Hk k).
  - f_equal. apply map_ext_in. intros k Hin.
    destruct (Hk k) as [Hfst Hfin]. rewrite <- Hfin.
    unfold has_label at 1. rewrite Hfst.
    destruct (String.eqb_spec "bq_load_dttm" (renamed rename_map k)) as [Eb|_];
      [|reflexivity].
    apply mem_false in Hmem. exfalso. apply Hmem. rewrite Eb.
    now apply in_map.
Qed.

Lemma keys_of_selected raw_list :
  In "npi" (names (prepared parse_number utcnow raw_list)) ->
  keys_of ["npi"]
    {| index := index (prepared parse_number utcnow raw_list);
       columns := flat_map (fun l => labelled l (prepared parse_number utcnow raw_list))
                           doctor_cols |}
  = map (fun r => [npi_key r]) raw_list.
Proof.
  intro Hnpi. unfold keys_of. cbn [index columns].
  rewrite (filter_flat_map_labelled (fun l => mem l ["npi"])).
  change (filter (fun l => mem l ["npi"]) doctor_cols) with ["npi"].
  cbn [flat_map]. rewrite app_nil_r, npi_column by exact Hnpi.
  cbn [map snd]. unfold row_of. cbn [map].
  change (index (prepared parse_number utcnow raw_list))
    with (seq 0 (length raw_list)).
  rewrite length_seq, <- (length_map npi_key raw_list).
  rewrite (map_nth_seq (fun v => [v])). now rewrite map_map.
Qed.

(** The split raises exactly when a doctor column is missing. *)
Lemma split_tables_prepared raw_list :
  split_tables (prepared parse_number utcnow raw_list) =
  match missing doctor_cols (prepared parse_number utcnow raw_list) with
  | [] => Ok (doctors_table parse_number utcnow raw_list,
              locations_table parse_number utcnow raw_list)
  | unknown => Raise (KeyError unknown)
  end.
Proof.
  unfold split_tables, getitem_list.
  destruct (missing doctor_cols (prepared parse_number utcnow raw_list))
    as [|l0 rest] eqn:Hm; [|reflexivity].
  cbn [bind].
  assert (Hnpi : In "npi" (names (prepared parse_number utcnow raw_list))).
  { eapply missing_nil_In; [exact Hm | now left]. }
  assert (Hsel : missing ["npi"]
            {| index := index (prepared parse_number utcnow raw_list);
               columns :=
                 flat_map (fun l => labelled l (prepared parse_number utcnow raw_list))
                          doctor_cols |} = []).
  { unfold missing, names. cbn [columns filter].
    unfold doctor_cols. cbn [flat_map].
    rewrite npi_column by exact Hnpi. cbn [app map fst].
    unfold mem. cbn [existsb]. rewrite String.eqb_refl. reflexivity. }
  unfold drop_duplicates. rewrite Hsel.
  rewrite (keys_of_selected raw_list Hnpi).
  cbn [bind].
  assert (Hper : missing person_cols (prepared parse_number utcnow raw_list) = []).
  { unfold missing, person_cols. rewrite filter_comm.
    unfold missing in Hm. now rewrite Hm. }
  unfold drop. rewrite Hper. cbn [bind]. reflexivity.
Qed.

Lemma fst_coerce_column_any label (c : column) :
  fst (coerce_column parse_number label c) = fst c.
Proof. unfold coerce_column. now destruct (has_label label c). Qed.

(** What [transform_data] returns or raises, decided by the raw keys: the
    lookup of each numeric column raises [KeyError] when no key feeds it,
    [pd.to_numeric] raises [TypeError] when several do, and the selection
    of the doctor columns raises [KeyError] with the labels that are
    missing. *)
Lemma transform_data_cases raw_list :
  transform_data parse_number utcnow raw_list =
  match feeds "graduation_year" raw_list with
  | [] => Raise (KeyError ["graduation_year"])
  | [_] =>
      match feeds "number_of_group_members" raw_list with
      | [] => Raise (KeyError ["number_of_group_members"])
      | [_] =>
          match missing doctor_cols (prepared parse_number utcnow raw_list) with
          | [] => Ok (doctors_table parse_number utcnow raw_list,
                      locations_table parse_number utcnow raw_list)
          | unknown => Raise (KeyError unknown)
          end
      | _ => Raise TypeError
      end
  | _ => Raise TypeError
  end.
Proof.
  unfold transform_data. rewrite normalized_frame.
  set (col2 := fun k => (renamed rename_map k,
                         map (fun r => replace_value (VStr "") VNull (dict_get k r))
                             raw_list)).
  set (df2 := {| index := _; columns := _ |}).
  assert (Hg : labelled "graduation_year" df2 =
               map col2 (feeds "graduation_year" raw_list))
    by apply labelled_normalized.
  destruct (feeds "graduation_year" raw_list) as [|kg [|kg' rest]] eqn:Fg.
  - unfold getitem at 1. now rewrite Hg.
  - assert (G1 : getitem "graduation_year" df2 = Ok (Series (snd (col2 kg))))
      by (unfold getitem; now rewrite Hg).
    rewrite G1. cbn [bind to_numeric].
    rewrite (setitem_numeric parse_number _ _ G1 eq_refl).
    set (df3 := {| index := _; columns := _ |}).
    assert (Hm : labelled "number_of_group_members" df3 =
                 map (coerce_column parse_number "graduation_year")
                     (map col2 (feeds "number_of_group_members" raw_list))).
    { unfold labelled, df3, df2, feeds. cbn [columns].
      rewrite !filter_map_swap. do 2 f_equal. apply filter_ext. intro k.
      unfold has_label. now rewrite fst_coerce_column_any. }
    destruct (feeds "number_of_group_members" raw_list) as [|km [|km' rest]]
      eqn:Fm.
    + unfold getitem at 1. now rewrite Hm.
    + assert (G2 : getitem "number_of_group_members" df3 =
                   Ok (Series (snd (coerce_column parse_number "graduation_year"
                                      (col2 km)))))
        by (unfold getitem; now rewrite Hm).
      rewrite G2. cbn [bind to_numeric].
      rewrite (setitem_numeric parse_number _ _ G2 eq_refl).
      unfold df3, df2. cbn [index columns].
      rewrite stamped_prepared.
      apply split_tables_prepared.
    + unfold getitem at 1. now rewrite Hm.
  - unfold getitem at 1. now rewrite Hg.
Qed.

End OutcomeFacts.

Lemma all_keys_spec (raw_list : list record) (k : string) :
  In k (all_keys raw_list) <-> exists r, In r raw_list /\ In k (map fst r).
Proof.
  unfold all_keys. rewrite unique_In, in_flat_map. tauto.
Qed.

Lemma feeds_In (label : string) (raw_list : list record) (k : string) :
  In k (feeds label raw_list) <->
  In k (all_keys raw_list) /\ renamed rename_map k = label.
Proof.
  unfold feeds. rewrite filter_In, String.eqb_eq. intuition congruence.
Qed.

Lemma feeds_NoDup (label : string) (raw_list : list record) :
  NoDup (feeds label raw_list).
Proof. unfold feeds, all_keys. apply NoDup_filter, unique_NoDup. Qed.

Lemma renamed_graduation_year (k : string) :
  renamed rename_map k = "graduation_year" <->
  k = "grd_yr" \/ k = "graduation_year".
Proof.
  split.
  - intro H. apply renamed_cases in H. destruct H as [H|[H _]]; [|now right].
    cbn in H. repeat (destruct H as [H|H]; [inversion H; subst; tauto|]).
    destruct H.
  - intros [-> | ->]; reflexivity.
Qed.

Section OutcomeTheorems.

Variable parse_number : string -> option Z.
Variable utcnow : Z.

Lemma mem_names_prepared (label : string) (raw_list : list record) :
  mem label (names (prepared parse_number utcnow raw_list)) =
  match feeds label raw_list with
  | [] => String.eqb label "bq_load_dttm"
  | _ :: _ => true
  end.
Proof.
  rewrite names_prepared.
  destruct (feeds label raw_list) as [|k rest] eqn:F.
  - assert (Hno : ~ In label (map (renamed rename_map) (all_keys raw_list))).
    { intro H. apply in_map_iff in H. destruct H as [k [Hk Hin]].
      assert (Hf : In k (feeds label raw_list)) by (apply feeds_In; now split).
      rewrite F in Hf. destruct Hf. }
    destruct (String.eqb_spec label "bq_load_dttm") as [->|Hne].
    + apply mem_In. apply in_or_app. right.
      apply mem_false in Hno. rewrite Hno. now left.
    + apply mem_false. intro H. apply in_app_or in H. destruct H as [H|H];
        [contradiction|].
      destruct (mem _ _); [destruct H|]. destruct H as [H|[]]. congruence.
  - apply mem_In. apply in_or_app. left.
    assert (Hf : In k (feeds label raw_list)) by (rewrite F; now left).
    apply feeds_In in Hf. destruct Hf as [Hk <-]. now apply in_map.
Qed.


(** X2. When no record has a graduation-year field, under either name, the
    lookup of the column raises [KeyError]. *)
Theorem missing_graduation_year_raises (raw_list : list record) :
  (forall r, In r raw_list ->
     ~ In "grd_yr" (map fst r) /\ ~ In "graduation_year" (map fst r)) ->
  transform_data parse_number utcnow raw_list =
  Raise (KeyError ["graduation_year"]).
Proof.
  intro H. rewrite transform_data_cases.
  replace (feeds "graduation_year" raw_list) with (@nil string); [reflexivity|].
  symmetry. unfold feeds. apply filter_all_false. intros k Hk.
  apply all_keys_spec in Hk. destruct Hk as [r [Hr Hk]].
  destruct (String.eqb_spec "graduation_year" (renamed rename_map k)) as [E|_];
    [|reflexivity].
  symmetry in E. apply renamed_graduation_year in E.
  destruct (H r Hr) as [H1 H2]. destruct E as [-> | ->]; contradiction.
Qed.

(** X3. When the input has both a ["grd_yr"] field and a field already
    named ["graduation_year"], two columns carry that label after the
    renaming and [pd.to_numeric] raises [TypeError]. *)
Theorem colliding_graduation_year_raises (raw_list : list record) :
  (exists r, In r raw_list /\ In "grd_yr" (map fst r)) ->
  (exists r, In r raw_list /\ In "graduation_year" (map fst r)) ->
  transform_data parse_number utcnow raw_list = Raise TypeError.
Proof.
  intros H1 H2. rewrite transform_data_cases.
  assert (F1 : In "grd_yr" (feeds "graduation_year" raw_list)).
  { apply feeds_In. split; [now apply all_keys_spec | reflexivity]. }
  assert (F2 : In "graduation_year" (feeds "graduation_year" raw_list)).
  { apply feeds_In. split; [now apply all_keys_spec | reflexivity]. }
  destruct (feeds "graduation_year" raw_list) as [|a [|b rest]].
  - destruct F1.
  - destruct F1 as [->|[]]. destruct F2 as [E|[]]. discriminate.
  - reflexivity.
Qed.

(** X4. When the two numeric columns are each fed by one raw key and some
    doctor column is fed by none, the selection of the doctor columns
    raises [KeyError] with exactly the doctor columns that no raw key
    feeds, in the order of [doctor_cols]. *)
Theorem missing_doctor_columns_raise (raw_list : list record) :
  length (feeds "graduation_year" raw_list) = 1 ->
  length (feeds "number_of_group_members" raw_list) = 1 ->
  filter (fun label => match feeds label raw_list with
                       | [] => negb (String.eqb label "bq_load_dttm")
                       | _ :: _ => false
                       end) doctor_cols <> [] ->
  transform_data parse_number utcnow raw_list =
  Raise (KeyError
           (filter (fun label => match feeds label raw_list with
                                 | [] => negb (String.eqb label "bq_load_dttm")
                                 | _ :: _ => false
                                 end) doctor_cols)).
Proof.
  intros Hg Hm Hne. rewrite transform_data_cases.
  destruct (feeds "graduation_year" raw_list) as [|kg [|kg' rg]];
    try discriminate.
  destruct (feeds "number_of_group_members" raw_list) as [|km [|km' rm]];
    try discriminate.
  assert (E : missing doctor_cols (prepared parse_number utcnow raw_list) =
              filter (fun label => match feeds label raw_list with
                                   | [] => negb (String.eqb label "bq_load_dttm")
                                   | _ :: _ => false
                                   end) doctor_cols).
  { unfold missing. apply filter_ext. intro label.
    rewrite mem_names_prepared. now destruct (feeds label raw_list). }
  rewrite E.
  destruct (filter _ doctor_cols); [contradiction | reflexivity].
Qed.

End OutcomeTheorems.

(** ** Columns and rows of the two tables *)

Lemma names_filter (g : string -> bool) (cols : list column) :
  map fst (filter (fun c => g (fst c)) cols) = filter g (map fst cols).
Proof.
  induction cols as [|c cols IH]; [reflexivity|].
  cbn [filter map]. destruct (g (fst c)); cbn [map]; now rewrite IH.
Qed.

Lemma pick_length_le {A : Type} (mask : list bool) : forall l : list A,
  length (pick mask l) <= length l.
Proof.
  induction mask as [|b mask IH]; intros [|x l]; cbn [pick length]; try lia.
  specialize (IH l). destruct b; cbn [length]; lia.
Qed.

Lemma pick_seq_increasing (mask : list bool) : forall start n p q i j,
  p < q ->
  nth_error (pick mask (seq start n)) p = Some i ->
  nth_error (pick mask (seq start n)) q = Some j ->
  i < j.
Proof.
  induction mask as [|b mask IH]; intros start n p q i j Hpq Hp Hq.
  - destruct p; discriminate.
  - destruct n as [|n]; [destruct p; discriminate|].
    cbn [seq pick] in Hp, Hq. destruct b.
    + destruct q as [|q]; [lia|]. cbn [nth_error] in Hq.
      destruct p as [|p]; cbn [nth_error] in Hp.
      * injection Hp as <-. apply nth_error_In, pick_In, in_seq in Hq. lia.
      * apply (IH (S start) n p q); [lia | assumption | assumption].
    + apply (IH (S start) n p q); assumption.
Qed.

Section TableTheorems.

Variable parse_number : string -> option Z.
Variable utcnow : Z.

(** X5. The first table has the doctor columns and no other; the second
    has every column of the frame but the seven person columns; the two
    tables have exactly the identifier and the load timestamp in common. *)
Theorem tables_share_only_join_columns raw_list df_doctors df_sl :
  transform_data parse_number utcnow raw_list = Ok (df_doctors, df_sl) ->
  (forall label, In label (names df_doctors) <-> In label doctor_cols) /\
  (forall label, In label (names df_sl) <->
     ~ In label person_cols /\
     (label = "bq_load_dttm" \/ feeds label raw_list <> [])) /\
  (forall label, In label (names df_doctors) /\ In label (names df_sl) <->
     label = "npi" \/ label = "bq_load_dttm").
Proof.
  intro H. pose proof (transform_data_tables _ _ _ H) as T. cbv zeta in T.
  destruct T as [Hcols [Hd Hl]].
  assert (Hnames : forall label,
            In label (names (prepared parse_number utcnow raw_list)) <->
            label = "bq_load_dttm" \/ feeds label raw_list <> []).
  { intro label. rewrite <- mem_In, mem_names_prepared.
    destruct (feeds label raw_list) eqn:F.
    - rewrite String.eqb_eq. intuition congruence.
    - split; [intros _; right; discriminate | reflexivity]. }
  assert (H1 : forall label, In label (names df_doctors) <-> In label doctor_cols).
  { intro label. rewrite Hd. unfold names. cbn [columns].
    rewrite map_map. cbn [fst]. rewrite in_map_iff. split.
    - intros [c [<- Hc]]. apply in_flat_map in Hc. destruct Hc as [l [Hl' Hc]].
      apply filter_In in Hc. destruct Hc as [_ Hc].
      apply String.eqb_eq in Hc. now rewrite <- Hc.
    - intro Hin. pose proof (Hcols label Hin) as Hn.
      unfold names in Hn. apply in_map_iff in Hn. destruct Hn as [c [<- Hc]].
      exists c. split; [reflexivity|]. apply in_flat_map. exists (fst c).
      split; [exact Hin|]. apply filter_In. split; [exact Hc|].
      apply String.eqb_refl. }
  assert (H2 : forall label, In label (names df_sl) <->
            ~ In label person_cols /\
            (label = "bq_load_dttm" \/ feeds label raw_list <> [])).
  { intro label. rewrite Hl. unfold names. cbn [columns].
    rewrite (names_filter (fun l => negb (mem l person_cols))), filter_In.
    rewrite negb_true_iff, mem_false. fold (names (prepared parse_number utcnow raw_list)).
    rewrite Hnames. tauto. }
  split; [exact H1|]. split; [exact H2|].
  intro label. rewrite H1, H2. split.
  - intros [Hdoc [Hper _]]. cbn in Hdoc, Hper.
    repeat (destruct Hdoc as [<-|Hdoc]; [tauto|]). destruct Hdoc.
  - assert (Hn : In "npi" (names (prepared parse_number utcnow raw_list)))
      by (apply Hcols; now left).
    apply Hnames in Hn.
    intros [-> | ->]; (split; [cbn; tauto|]); (split; [cbn; intuition discriminate|]);
      tauto.
Qed.

(** X6. Every row of both tables holds the one timestamp of the run under
    ["bq_load_dttm"], and nothing else under that label. *)
Theorem load_timestamp_in_every_row raw_list df_doctors df_sl :
  transform_data parse_number utcnow raw_list = Ok (df_doctors, df_sl) ->
  (forall i, i < length raw_list ->
     filter (has_label "bq_load_dttm") (row_at df_sl i) =
     [("bq_load_dttm", VTime utcnow)]) /\
  (forall pos, pos < length (index df_doctors) ->
     filter (has_label "bq_load_dttm") (row_at df_doctors pos) =
     [("bq_load_dttm", VTime utcnow)]).
Proof.
  intro H.
  assert (Hnd : NoDup (all_keys raw_list)) by apply unique_NoDup.
  split.
  - intros i Hi. destruct (nth_error raw_list i) as [r|] eqn:Hr;
      [|apply nth_error_None in Hr; lia].
    rewrite (row_at_locations _ _ _ _ H Hr). unfold location_row.
    rewrite filter_comm, (full_row_stamp parse_number utcnow r Hnd).
    reflexivity.
  - intros pos Hpos. destruct (nth_error (index df_doctors) pos) as [i|] eqn:Hi;
      [|apply nth_error_None in Hi; lia].
    destruct (row_at_doctors _ _ _ _ H Hi) as [r [Hr ->]].
    unfold doctor_row.
    change (@has_label value "bq_load_dttm")
      with (fun c : string * value => String.eqb "bq_load_dttm" (fst c)).
    rewrite (filter_label_flat_map (String.eqb "bq_load_dttm")).
    change (filter (String.eqb "bq_load_dttm") doctor_cols) with ["bq_load_dttm"].
    cbn [flat_map]. rewrite app_nil_r.
    apply (full_row_stamp parse_number utcnow r Hnd).
Qed.

(** X7. The rows of the first table keep the labels of the records they
    come from: the labels increase strictly, each is the position of a
    record, there are no more rows than records, and the first record of a
    non-empty input always gives the first row. *)
Theorem doctor_rows_are_a_selection raw_list df_doctors df_sl :
  transform_data parse_number utcnow raw_list = Ok (df_doctors, df_sl) ->
  (forall p q i j, p < q ->
     nth_error (index df_doctors) p = Some i ->
     nth_error (index df_doctors) q = Some j -> i < j) /\
  (forall i, In i (index df_doctors) -> In i (index df_sl)) /\
  length (index df_doctors) <= length (index df_sl) /\
  (raw_list <> [] -> nth_error (index df_doctors) 0 = Some 0).
Proof.
  intro H. pose proof (transform_data_tables _ _ _ H) as T. cbv zeta in T.
  destruct T as [_ [-> ->]]. cbn [index]. repeat split.
  - intros p q i j. apply pick_seq_increasing.
  - intros i. apply pick_In.
  - apply pick_length_le.
  - intro Hne. destruct raw_list as [|r rest]; [congruence|]. reflexivity.
Qed.

End TableTheorems.

(** ** Cells of the two tables *)

Lemma NoDup_map_on {A B : Type} (f : A -> B) (l : list A) :
  (forall x y, In x l -> In y l -> f x = f y -> x = y) ->
  NoDup l -> NoDup (map f l).
Proof.
  intros Hinj Hnd. induction Hnd as [|x l Hx Hnd IH]; cbn [map]; constructor.
  - intro Hin. apply in_map_iff in Hin. destruct Hin as [y [Hy Hin]].
    assert (y = x) by (apply Hinj; cbn; auto). subst. contradiction.
  - apply IH. intros a b Ha Hb. apply Hinj; now right.
Qed.

Lemma targets_NoDup : NoDup (map snd rename_map).
Proof.
  cbn [map snd rename_map]. repeat constructor; cbn [In]; intuition discriminate.
Qed.

Lemma same_target {A : Type} (m : list (A * string)) (a b : A) (l : string) :
  NoDup (map snd m) -> In (a, l) m -> In (b, l) m -> a = b.
Proof.
  induction m as [|[x y] m IH]; intros Hnd Ha Hb; [destruct Ha|].
  cbn [map snd] in Hnd. inversion Hnd as [|? ? Hy Hnd']; subst.
  destruct Ha as [Ha|Ha], Hb as [Hb|Hb].
  - congruence.
  - injection Ha as -> ->. exfalso. apply Hy.
    apply in_map_iff. now exists (b, l).
  - injection Hb as -> ->. exfalso. apply Hy.
    apply in_map_iff. now exists (a, l).
  - now apply IH.
Qed.

(** The rename map sends two source fields it knows to two labels. *)
Lemma renamed_injective_known (k1 k2 : string) :
  In k1 (map fst rename_map) -> In k2 (map fst rename_map) ->
  renamed rename_map k1 = renamed rename_map k2 -> k1 = k2.
Proof.
  intros H1 H2 E.
  destruct (@renamed_cases k1 _ eq_refl) as [A|[_ A]];
    [|contradiction].
  destruct (@renamed_cases k2 _ eq_refl) as [B|[_ B]];
    [|contradiction].
  rewrite E in A. eapply same_target; [exact targets_NoDup | exact A | exact B].
Qed.

Lemma flat_map_ext_on {A B : Type} (f g : A -> list B) (l : list A) :
  (forall x, In x l -> f x = g x) -> flat_map f l = flat_map g l.
Proof.
  induction l as [|x l IH]; intro H; [reflexivity|].
  cbn [flat_map]. rewrite (H x) by now left.
  rewrite IH; [reflexivity|]. intros y Hy. apply H. now right.
Qed.

Lemma labelled_names_unique (label : string) (df : DataFrame) :
  NoDup (names df) -> In label (names df) ->
  map fst (labelled label df) = [label].
Proof.
  unfold names, labelled. induction (columns df) as [|c cols IH];
    intros Hnd Hin; [destruct Hin|].
  cbn [map] in Hnd. inversion Hnd as [|? ? Hc Hnd']; subst.
  cbn [filter]. unfold has_label at 1.
  destruct (String.eqb_spec label (fst c)) as [->|Hne].
  - cbn [map]. f_equal. rewrite filter_all_false; [reflexivity|].
    intros c' Hc'. unfold has_label.
    destruct (String.eqb_spec (fst c) (fst c')) as [E|_]; [|reflexivity].
    exfalso. apply Hc. rewrite E. now apply in_map.
  - destruct Hin as [E|Hin]; [congruence|]. now apply IH.
Qed.

Lemma full_row_In_label (parse_number : string -> option Z) (utcnow : Z)
    keys r label v :
  In (label, v) (full_row parse_number utcnow keys r) ->
  (label = "bq_load_dttm" /\ v = VTime utcnow) \/
  exists k, In k keys /\ renamed rename_map k = label /\
            v = final_cell parse_number utcnow label (dict_get k r).
Proof.
  unfold full_row. intro H. apply in_app_or in H. destruct H as [H|H].
  - apply in_map_iff in H. destruct H as [k [[= <- <-] Hk]]. right.
    exists k. auto.
  - destruct (mem _ _); [destruct H|]. destruct H as [[= <- <-]|[]]. now left.
Qed.

Section CellTheorems.

Variable parse_number : string -> option Z.
Variable utcnow : Z.

(** X8. After the coercion the two numeric columns hold numbers and missing
    values only: no string is left under the graduation year or the group
    member count. *)
Theorem numeric_columns_hold_numbers raw_list df_doctors df_sl i r label v :
  transform_data parse_number utcnow raw_list = Ok (df_doctors, df_sl) ->
  nth_error raw_list i = Some r ->
  In label ["graduation_year"; "number_of_group_members"] ->
  In (label, v) (row_at df_sl i) ->
  v = VNull \/ exists n, v = VNum n.
Proof.
  intros H Hi Hl Hin.
  rewrite (row_at_locations _ _ _ _ H Hi) in Hin.
  apply location_row_In in Hin. destruct Hin as [Hin _].
  apply full_row_In_label in Hin.
  assert (Hc : forall x, coerce parse_number x = VNull \/
                         exists n, coerce parse_number x = VNum n).
  { intros [| s | n | t]; cbn; eauto. destruct (parse_number s); eauto. }
  destruct Hin as [[-> _]|[k [_ [_ ->]]]].
  - destruct Hl as [E|[E|[]]]; discriminate.
  - destruct Hl as [<-|[<-|[]]]; apply Hc.
Qed.

(** X9. Outside the two numeric columns and the load timestamp a null, or
    a string other than the empty string, is kept as it is, under the
    renamed label, in every table that has the column: blanks and other
    strings are not touched. *)
Theorem other_values_are_kept raw_list df_doctors df_sl i r k :
  transform_data parse_number utcnow raw_list = Ok (df_doctors, df_sl) ->
  nth_error raw_list i = Some r ->
  In k (map fst r) ->
  dict_get k r = VNull \/ (exists s, dict_get k r = VStr s /\ s <> "") ->
  ~ In (renamed rename_map k)
       ["graduation_year"; "number_of_group_members"; "bq_load_dttm"] ->
  (~ In (renamed rename_map k) person_cols ->
   In (renamed rename_map k, dict_get k r) (row_at df_sl i)) /\
  (forall pos, nth_error (index df_doctors) pos = Some i ->
     In (renamed rename_map k) doctor_cols ->
     In (renamed rename_map k, dict_get k r) (row_at df_doctors pos)).
Proof.
  intros H Hi Hk Hs Hl.
  assert (Hv : dict_get k r <> VStr "").
  { destruct Hs as [E|[s [E Hs]]]; rewrite E; congruence. }
  assert (Hkey : In k (all_keys raw_list)).
  { eapply all_keys_In; [eapply nth_error_In; eassumption | exact Hk]. }
  assert (Hcell : final_cell parse_number utcnow (renamed rename_map k)
                    (dict_get k r) = dict_get k r).
  { unfold final_cell, mem. cbn [existsb] in *. cbn [In] in Hl.
    destruct (String.eqb_spec (renamed rename_map k) "bq_load_dttm");
      [exfalso; apply Hl; auto|].
    destruct (String.eqb_spec (renamed rename_map k) "graduation_year");
      [exfalso; apply Hl; auto|].
    destruct (String.eqb_spec (renamed rename_map k) "number_of_group_members");
      [exfalso; apply Hl; auto|].
    cbn. unfold replace_value.
    destruct (value_eq_dec (dict_get k r) (VStr "")); [contradiction|reflexivity]. }
  pose proof (@full_row_key parse_number utcnow _ r _ Hkey) as Hin.
  rewrite Hcell in Hin. split.
  - intro Hp. rewrite (row_at_locations _ _ _ _ H Hi).
    apply location_row_In. now split.
  - intros pos Hpos Hd. destruct (row_at_doctors _ _ _ _ H Hpos) as [r' [Hr' ->]].
    assert (r' = r) by congruence. subst r'.
    apply doctor_row_In. now split.
Qed.

(** X10. The rename map is one to one on the source fields it knows; so,
    when every field of every record is a known source field, no label is
    carried by two columns: the first table has exactly the nine doctor
    columns, in the order of [doctor_cols], and the labels of the second
    table are distinct. *)
Theorem known_fields_give_the_doctor_columns raw_list df_doctors df_sl :
  transform_data parse_number utcnow raw_list = Ok (df_doctors, df_sl) ->
  (forall r k, In r raw_list -> In k (map fst r) -> In k (map fst rename_map)) ->
  names df_doctors = doctor_cols /\ NoDup (names df_sl).
Proof.
  intros H Hknown.
  pose proof (transform_data_tables _ _ _ H) as T. cbv zeta in T.
  destruct T as [Hcols [Hd Hl]].
  assert (HL : NoDup (map (renamed rename_map) (all_keys raw_list))).
  { apply NoDup_map_on; [|apply unique_NoDup].
    intros x y Hx Hy. apply all_keys_spec in Hx, Hy.
    destruct Hx as [rx [Hrx Hx]], Hy as [ry [Hry Hy]].
    apply renamed_injective_known; eauto. }
  assert (HP : NoDup (names (prepared parse_number utcnow raw_list))).
  { rewrite names_prepared.
    destruct (mem "bq_load_dttm" (map (renamed rename_map) (all_keys raw_list)))
      eqn:M.
    - now rewrite app_nil_r.
    - apply mem_false in M. apply NoDup_app; [exact HL | repeat constructor; auto |].
      intros a Ha [<-|[]]. contradiction. }
  split.
  - rewrite Hd. unfold names at 1. cbn [columns]. rewrite map_map. cbn [fst].
    rewrite map_flat_map_comm.
    transitivity (flat_map (fun l : string => [l]) doctor_cols); [|reflexivity].
    apply flat_map_ext_on. intros l Hin.
    apply labelled_names_unique; [exact HP | now apply Hcols].
  - rewrite Hl. unfold names. cbn [columns].
    rewrite (names_filter (fun l => negb (mem l person_cols))).
    apply NoDup_filter. exact HP.
Qed.

End CellTheorems.

(** ** More on the extraction *)

Lemma paginate_endless fetch state fuel : forall offset result log,
  (forall j, exists p,
     fetch state (offset + j * CHUNK_SIZE) = Page p /\ CHUNK_SIZE <= length p) ->
  paginate fetch fuel state offset result log = None.
Proof.
  induction fuel as [|fuel IH]; intros offset result log H; [reflexivity|].
  rewrite paginate_S.
  destruct (H 0) as [p [Hp Hlen]].
  replace (offset + 0 * CHUNK_SIZE) with offset in Hp by lia. rewrite Hp.
  assert (0 < CHUNK_SIZE) by (unfold CHUNK_SIZE; lia).
  destruct p as [|x p]; [cbn in Hlen; lia|].
  destruct (Nat.ltb_spec (length (x :: p)) CHUNK_SIZE) as [Hlt|_]; [lia|].
  apply IH. intro j. destruct (H (S j)) as [q Hq]. exists q.
  replace (offset + CHUNK_SIZE + j * CHUNK_SIZE)
    with (offset + S j * CHUNK_SIZE) by lia.
  exact Hq.
Qed.

(** X11. When the records of a state fill a whole number of pages, the loop
    asks once more than there are pages: the request after the last full
    page brings an empty page, which ends the loop and adds nothing. *)
Theorem empty_page_ends_pagination
    (fetch : string -> nat -> response) (fuel : nat) (state : string)
    (pages : list (list record)) :
  full_pages fetch state 0 pages ->
  fetch state (length pages * CHUNK_SIZE) = Page [] ->
  length pages < fuel ->
  paginate fetch fuel state 0 [] [] =
  Some (flat_map (filter in_filter) pages, offsets state 0 (S (length pages))).
Proof.
  intros Hfull Hlast Hfuel.
  rewrite (@paginate_ends fetch fuel state pages [] Hfull); auto.
  - cbn [filter]. now rewrite app_nil_r.
  - right. split; [exact Hlast|]. unfold CHUNK_SIZE. cbn [length]. lia.
Qed.

(** X12. The loop has no bound of its own: for a state whose every request
    brings a full page the loop does not end, whatever the number of
    iterations allowed, and neither does an extraction that comes to that
    state. *)
Theorem endless_source_never_returns
    (fetch : string -> nat -> response) (state : string) :
  (forall j, exists p,
     fetch state (j * CHUNK_SIZE) = Page p /\ CHUNK_SIZE <= length p) ->
  (forall fuel result log,
     paginate fetch fuel state 0 result log = None) /\
  (forall fuel states result log,
     In state states -> for_states fetch fuel states result log = None).
Proof.
  intro H.
  assert (Hp : forall fuel result log,
            paginate fetch fuel state 0 result log = None).
  { intros fuel result log. apply paginate_endless. exact H. }
  split; [exact Hp|].
  intros fuel states. induction states as [|s rest IH]; intros result log Hin;
    [destruct Hin|].
  cbn [for_states]. destruct Hin as [->|Hin].
  - now rewrite Hp.
  - destruct (paginate fetch fuel s 0 result log) as [[r l]|]; [|reflexivity].
    now apply IH.
Qed.

(** X13. The states do not influence each other: the result and the
    requests of an extraction over two lists of states are those of the
    first list followed by those of the second, each as it is on its own,
    after whatever was accumulated before. *)
Theorem states_are_independent
    (fetch : string -> nat -> response) (fuel : nat)
    (pre post : list string) (result : list record) (log : list (string * nat)) :
  for_states fetch fuel (pre ++ post) result log =
  match for_states fetch fuel pre [] [], for_states fetch fuel post [] [] with
  | Some (r1, l1), Some (r2, l2) =>
      Some (result ++ r1 ++ r2, log ++ l1 ++ l2)
  | _, _ => None
  end.
Proof.
  rewrite for_states_acc, for_states_app.
  destruct (for_states fetch fuel pre [] []) as [[r1 l1]|]; [|reflexivity].
  destruct (for_states fetch fuel post [] []) as [[r2 l2]|]; reflexivity.
Qed.

(** ** The loads *)

Lemma table_ids_differ :
  table_id_of "doctors" <> table_id_of "specialty_and_locations".
Proof. vm_compute. discriminate. Qed.

(** X14. A run that completes has extracted, transformed, and submitted
    exactly two load jobs, both accepted: the first table to
    [home-assignment-478617.doctors_and_clinicians.doctors], then the second
    to [home-assignment-478617.doctors_and_clinicians.specialty_and_locations]. *)
Theorem completed_run_loads_both_tables
    (warehouse : string -> DataFrame -> load_outcome)
    (fetch : string -> nat -> response)
    (parse_number : string -> option Z) (utcnow : Z) (fuel : nat)
    (jobs : list (string * DataFrame)) :
  run_main warehouse fetch parse_number utcnow fuel = (Completed, jobs) ->
  exists raw log df_doctors df_sl rows_doctors rows_sl,
    extract_cms_data fetch fuel = Some (raw, log) /\
    transform_data parse_number utcnow raw = Ok (df_doctors, df_sl) /\
    jobs = [ ("home-assignment-478617.doctors_and_clinicians.doctors",
              df_doctors);
             ("home-assignment-478617.doctors_and_clinicians.specialty_and_locations",
              df_sl) ] /\
    warehouse "home-assignment-478617.doctors_and_clinicians.doctors" df_doctors
      = Loaded rows_doctors /\
    warehouse
      "home-assignment-478617.doctors_and_clinicians.specialty_and_locations"
      df_sl = Loaded rows_sl.
Proof.
  unfold run_main, load_to_bigquery. intro H.
  destruct (extract_cms_data fetch fuel) as [[raw log]|] eqn:E; [|discriminate].
  destruct (transform_data parse_number utcnow raw) as [[docs sl]|] eqn:T;
    [|discriminate].
  change (table_id_of "doctors")
    with "home-assignment-478617.doctors_and_clinicians.doctors" in H.
  change (table_id_of "specialty_and_locations")
    with "home-assignment-478617.doctors_and_clinicians.specialty_and_locations"
    in H.
  destruct (warehouse "home-assignment-478617.doctors_and_clinicians.doctors" docs)
    as [| |n] eqn:W1; try discriminate.
  destruct (warehouse
              "home-assignment-478617.doctors_and_clinicians.specialty_and_locations"
              sl) as [| |m] eqn:W2; try discriminate.
  injection H as <-. exists raw, log, docs, sl, n, m.
  repeat split; assumption.
Qed.

(** X15. The second table is never submitted unless the load of the first
    was accepted before it in the same run: a job for
    [specialty_and_locations] is always the second of two, after an
    accepted job for [doctors].  A run whose extraction does not end or
    whose transformation raises submits nothing. *)
Theorem locations_never_loaded_without_doctors
    (warehouse : string -> DataFrame -> load_outcome)
    (fetch : string -> nat -> response)
    (parse_number : string -> option Z) (utcnow : Z) (fuel : nat)
    (outcome : run_outcome) (jobs : list (string * DataFrame)) :
  run_main warehouse fetch parse_number utcnow fuel = (outcome, jobs) ->
  (forall df, In (table_id_of "specialty_and_locations", df) jobs ->
     exists df_doctors rows,
       jobs = [(table_id_of "doctors", df_doctors);
               (table_id_of "specialty_and_locations", df)] /\
       warehouse (table_id_of "doctors") df_doctors = Loaded rows) /\
  (outcome = RaisedInLoad "doctors" ->
   forall df, ~ In (table_id_of "specialty_and_locations", df) jobs) /\
  (outcome = NotEnded \/ (exists e, outcome = RaisedInTransform e) ->
   jobs = []).
Proof.
  unfold run_main, load_to_bigquery. intro H.
  pose proof table_ids_differ as Hne.
  destruct (extract_cms_data fetch fuel) as [[raw log]|].
  2: { injection H as <- <-. split; [intros df []|].
       split; [intros _ df []|]. reflexivity. }
  destruct (transform_data parse_number utcnow raw) as [[docs sl]|].
  2: { injection H as <- <-. split; [intros df []|].
       split; [intros _ df []|]. reflexivity. }
  destruct (warehouse (table_id_of "doctors") docs) as [| |n] eqn:W1.
  - injection H as <- <-. split; [intros df []|].
    split; [intros _ df []|]. reflexivity.
  - injection H as <- <-. cbn [app].
    assert (Hno : forall df,
              ~ In (table_id_of "specialty_and_locations", df)
                   [(table_id_of "doctors", docs)]).
    { intros df [E|[]]. congruence. }
    split; [intros df Hin; now apply Hno in Hin|].
    split; [intros _; exact Hno|].
    intros [E|[e E]]; discriminate.
  - cbn [app] in H.
    assert (Htwo : forall df,
              In (table_id_of "specialty_and_locations", df)
                 [(table_id_of "doctors", docs);
                  (table_id_of "specialty_and_locations", sl)] ->
              exists df_doctors rows,
                [(table_id_of "doctors", docs);
                 (table_id_of "specialty_and_locations", sl)] =
                [(table_id_of "doctors", df_doctors);
                 (table_id_of "specialty_and_locations", df)] /\
                warehouse (table_id_of "doctors") df_doctors = Loaded rows).
    { intros df [E|[E|[]]]; [exfalso; congruence|].
      assert (sl = df) by congruence. subst df. exists docs, n. now split. }
    destruct (warehouse (table_id_of "specialty_and_locations") sl)
      as [| |m] eqn:W2; injection H as <- <-.
    + split; [intros df [E|[]]; exfalso; congruence|].
      split; [discriminate|]. intros [E|[e E]]; discriminate.
    + split; [exact Htwo|].
      split; [discriminate|]. intros [E|[e E]]; discriminate.
    + split; [exact Htwo|].
      split; [discriminate|]. intros [E|[e E]]; discriminate.
Qed.

(** X16. There is no rollback: when the run ends on the load of the second
    table, the job for the first table was submitted and accepted, and the
    warehouse holds doctors without their locations. *)
Theorem failed_second_load_leaves_doctors_loaded
    (warehouse : string -> DataFrame -> load_outcome)
    (fetch : string -> nat -> response)
    (parse_number : string -> option Z) (utcnow : Z) (fuel : nat)
    (jobs : list (string * DataFrame)) :
  run_main warehouse fetch parse_number utcnow fuel =
    (RaisedInLoad "specialty_and_locations", jobs) ->
  exists df_doctors rows,
    nth_error jobs 0 = Some (table_id_of "doctors", df_doctors) /\
    warehouse (table_id_of "doctors") df_doctors = Loaded rows /\
    forall df, In (table_id_of "specialty_and_locations", df) jobs ->
               warehouse (table_id_of "specialty_and_locations") df = JobFailed.
Proof.
  unfold run_main, load_to_bigquery. intro H.
  pose proof table_ids_differ as Hne.
  destruct (extract_cms_data fetch fuel) as [[raw log]|]; [|discriminate].
  destruct (transform_data parse_number utcnow raw) as [[docs sl]|];
    [|discriminate].
  destruct (warehouse (table_id_of "doctors") docs) as [| |n] eqn:W1;
    try discriminate.
  cbn [app] in H.
  destruct (warehouse (table_id_of "specialty_and_locations") sl)
    as [| |m] eqn:W2; try discriminate; injection H as <-;
    exists docs, n; (split; [reflexivity|]); (split; [exact W1|]).
  - intros df [E|[]]. exfalso. congruence.
  - intros df [E|[E|[]]]; [exfalso; congruence|].
    assert (sl = df) by congruence. subst df. exact W2.
Qed.

(** ** Rows kept by the deduplication *)

Lemma first_seen_all_new keys : forall seen,
  NoDup keys -> (forall k, In k keys -> ~ In k seen) ->
  first_seen seen keys = repeat true (length keys).
Proof.
  induction keys as [|k keys IH]; intros seen Hnd Hnew; [reflexivity|].
  inversion Hnd as [|? ? Hk Hnd']; subst.
  cbn [first_seen length repeat].
  destruct (seen_before k seen) eqn:E.
  - apply seen_before_spec in E. exfalso. apply (Hnew k); [now left | exact E].
  - f_equal. apply IH; [exact Hnd'|].
    intros k' Hk' [<-|Hs]; [contradiction|].
    apply (Hnew k'); [now right | exact Hs].
Qed.

Lemma pick_all {A : Type} (l : list A) : pick (repeat true (length l)) l = l.
Proof.
  induction l as [|x l IH]; [reflexivity|]. cbn. now rewrite IH.
Qed.

(** X17. For records whose values are all strings: when no identifier
    repeats, once empty strings are missing values, the deduplication drops
    nothing: the first table has a row for every record, with the labels
    of the second. *)
Theorem distinct_npi_keep_every_row
    (parse_number : string -> option Z) (utcnow : Z)
    raw_list df_doctors df_sl :
  transform_data parse_number utcnow raw_list = Ok (df_doctors, df_sl) ->
  (forall r, In r raw_list -> textual r) ->
  NoDup (map npi_key raw_list) ->
  index df_doctors = index df_sl /\
  length (index df_doctors) = length raw_list /\
  forall i r, nth_error raw_list i = Some r ->
    row_at df_doctors i =
    doctor_row parse_number utcnow (all_keys raw_list) r.
Proof.
  intros H _ Hnd.
  pose proof (transform_data_tables _ _ _ H) as T. cbv zeta in T.
  destruct T as [_ [Hd Hl]].
  assert (Hk : kept raw_list = repeat true (length (seq 0 (length raw_list)))).
  { unfold kept. rewrite <- (map_map npi_key (fun v => [v])).
    rewrite first_seen_all_new.
    - now rewrite !length_map, length_seq.
    - apply NoDup_map_on; [|exact Hnd]. intros x y _ _ E. now injection E.
    - intros k _ []. }
  assert (Hix : index df_doctors = seq 0 (length raw_list)).
  { rewrite Hd. cbn [index]. rewrite Hk. apply pick_all. }
  split; [rewrite Hix, Hl; reflexivity|].
  split; [rewrite Hix; apply length_seq|].
  intros i r Hi.
  assert (Hpos : nth_error (index df_doctors) i = Some i).
  { rewrite Hix. rewrite nth_error_seq.
    assert (i < length raw_list) by (apply nth_error_Some; congruence).
    destruct (Nat.ltb_spec i (length raw_list)); [reflexivity | lia]. }
  destruct (@row_at_doctors parse_number utcnow _ _ _ _ _ H Hpos)
    as [r' [Hr' ->]].
  congruence.
Qed.

(** ** The further properties at work on the sample data *)

Lemma missing_graduation_year_raises_witness :
  transform_data parse_decimal 7 [sample_no_year] =
  Raise (KeyError ["graduation_year"]).
Proof.
  apply (@missing_graduation_year_raises parse_decimal 7 [sample_no_year]).
  intros r [<-|[]]. cbn. intuition discriminate.
Defined.

Lemma colliding_graduation_year_raises_witness :
  transform_data parse_decimal 7 [sample_two_years] = Raise TypeError.
Proof.
  apply (@colliding_graduation_year_raises parse_decimal 7 [sample_two_years]).
  - exists sample_two_years. split; [now left | cbn; tauto].
  - exists sample_two_years. split; [now left | cbn; tauto].
Defined.

Lemma missing_doctor_columns_raise_witness :
  transform_data parse_decimal 7 [sample_no_suffix] =
  Raise (KeyError ["provider_suffix"; "gender"]).
Proof.
  assert (H1 : length (feeds "graduation_year" [sample_no_suffix]) = 1)
    by reflexivity.
  assert (H2 : length (feeds "number_of_group_members" [sample_no_suffix]) = 1)
    by reflexivity.
  assert (H3 : filter (fun label => match feeds label [sample_no_suffix] with
                                    | [] => negb (String.eqb label "bq_load_dttm")
                                    | _ :: _ => false
                                    end) doctor_cols <> [])
    by (vm_compute; discriminate).
  exact (@missing_doctor_columns_raise parse_decimal 7 [sample_no_suffix]
           H1 H2 H3).
Defined.

Lemma sample_tables_eq :
  transform_data parse_decimal 7 sample_raw =
  Ok (fst (tables_of (transform_data parse_decimal 7 sample_raw)),
      snd (tables_of (transform_data parse_decimal 7 sample_raw))).
Proof. vm_compute. reflexivity. Qed.

Lemma tables_share_only_join_columns_witness :
  In "npi" (names (fst (tables_of (transform_data parse_decimal 7 sample_raw))))
  /\ In "npi" (names (snd (tables_of (transform_data parse_decimal 7 sample_raw)))).
Proof.
  exact (proj2 (proj2 (proj2 (@tables_share_only_join_columns parse_decimal 7
                                sample_raw _ _ sample_tables_eq)) "npi")
               (or_introl eq_refl)).
Defined.

Lemma load_timestamp_in_every_row_witness :
  filter (has_label "bq_load_dttm")
    (row_at (snd (tables_of (transform_data parse_decimal 7 sample_raw))) 2) =
  [("bq_load_dttm", VTime 7)].
Proof.
  apply (proj1 (@load_timestamp_in_every_row parse_decimal 7
                  sample_raw _ _ sample_tables_eq) 2).
  cbn [length sample_raw]. lia.
Defined.

Lemma doctor_rows_are_a_selection_witness :
  length (index (fst (tables_of (transform_data parse_decimal 7 sample_raw))))
  <= length (index (snd (tables_of (transform_data parse_decimal 7 sample_raw)))).
Proof.
  exact (proj1 (proj2 (proj2 (@doctor_rows_are_a_selection parse_decimal 7
                                sample_raw _ _ sample_tables_eq)))).
Defined.

Lemma numeric_columns_hold_numbers_witness :
  VNum 2005 = VNull \/ exists n, VNum 2005 = VNum n.
Proof.
  apply (@numeric_columns_hold_numbers parse_decimal 7 sample_raw _ _ 0
           (sample (VStr "111") (VStr "2005") orthopedic)
           "graduation_year" (VNum 2005) sample_tables_eq).
  - reflexivity.
  - now left.
  - vm_compute. tauto.
Defined.

Lemma other_values_are_kept_witness :
  In ("provider_middle_name", VStr " ")
     (row_at (fst (tables_of (transform_data parse_decimal 7 [sample_blank]))) 0).
Proof.
  assert (H : transform_data parse_decimal 7 [sample_blank] =
              Ok (fst (tables_of (transform_data parse_decimal 7 [sample_blank])),
                  snd (tables_of (transform_data parse_decimal 7 [sample_blank]))))
    by (vm_compute; reflexivity).
  assert (Hi : nth_error [sample_blank] 0 = Some sample_blank) by reflexivity.
  assert (Hk : In "provider_middle_name" (map fst sample_blank))
    by (cbn; tauto).
  assert (Hv : dict_get "provider_middle_name" sample_blank = VNull \/
               exists s, dict_get "provider_middle_name" sample_blank = VStr s /\
                         s <> "").
  { right. exists " ". split; [reflexivity | discriminate]. }
  assert (Hl : ~ In (renamed rename_map "provider_middle_name")
                    ["graduation_year"; "number_of_group_members"; "bq_load_dttm"])
    by (cbn; intuition discriminate).
  apply (proj2 (@other_values_are_kept parse_decimal 7 [sample_blank] _ _ 0
                  sample_blank "provider_middle_name" H Hi Hk Hv Hl) 0).
  - reflexivity.
  - cbn. tauto.
Defined.

Lemma known_fields_give_the_doctor_columns_witness :
  names (fst (tables_of (transform_data parse_decimal 7 sample_raw))) = doctor_cols.
Proof.
  apply (@known_fields_give_the_doctor_columns parse_decimal 7 sample_raw
           _ _ sample_tables_eq).
  intros r k Hr Hk.
  destruct Hr as [<-|[<-|[<-|[]]]]; cbn in Hk; cbn; tauto.
Defined.

Lemma empty_page_ends_pagination_witness :
  paginate source_1000 2 "AL" 0 [] [] =
  Some (flat_map (filter in_filter) [page_1000], offsets "AL" 0 2).
Proof.
  assert (H1 : full_pages source_1000 "AL" 0 [page_1000]).
  { intros [|[|j]] p Hj; cbn [nth_error] in Hj; try discriminate.
    injection Hj as <-. split; [reflexivity|].
    unfold CHUNK_SIZE, page_1000. rewrite repeat_length. apply le_n. }
  assert (H2 : source_1000 "AL" (length [page_1000] * CHUNK_SIZE) = Page [])
    by reflexivity.
  assert (H3 : length [page_1000] < 2) by (cbn [length]; lia).
  exact (@empty_page_ends_pagination source_1000 2 "AL" [page_1000] H1 H2 H3).
Defined.

Lemma endless_source_never_returns_witness :
  extract_cms_data source_endless 50 = None.
Proof.
  unfold extract_cms_data.
  apply (proj2 (@endless_source_never_returns source_endless "AL"
    (fun j => ex_intro _ page_1000
                (conj eq_refl (eq_ind_r (fun n => CHUNK_SIZE <= n) (le_n _)
                                        (repeat_length _ 1000)))))).
  now left.
Defined.

Lemma completed_run_loads_both_tables_witness :
  exists df_doctors df_sl,
    snd (run_main warehouse_up source_small parse_decimal 7 3) =
    [ ("home-assignment-478617.doctors_and_clinicians.doctors", df_doctors);
      ("home-assignment-478617.doctors_and_clinicians.specialty_and_locations",
       df_sl) ].
Proof.
  destruct (@completed_run_loads_both_tables warehouse_up source_small
              parse_decimal 7 3
              (snd (run_main warehouse_up source_small parse_decimal 7 3)))
    as [raw [log [docs [sl [n [m [_ [_ [H _]]]]]]]]].
  - vm_compute. reflexivity.
  - exists docs, sl. exact H.
Defined.

Lemma locations_never_loaded_without_doctors_witness :
  ~ In (table_id_of "specialty_and_locations",
        snd (tables_of (transform_data parse_decimal 7 sample_raw)))
       (snd (run_main warehouse_refusing_doctors source_small parse_decimal 7 3)).
Proof.
  refine (proj1 (proj2 (@locations_never_loaded_without_doctors
                         warehouse_refusing_doctors source_small parse_decimal 7 3
                         (RaisedInLoad "doctors")
                         (snd (run_main warehouse_refusing_doctors source_small
                                 parse_decimal 7 3))
                         _)) _ _).
  - vm_compute. reflexivity.
  - reflexivity.
Defined.

Lemma failed_second_load_leaves_doctors_loaded_witness :
  exists df_doctors rows,
    nth_error (snd (run_main warehouse_refusing_locations source_small
                      parse_decimal 7 3)) 0
      = Some (table_id_of "doctors", df_doctors) /\
    warehouse_refusing_locations (table_id_of "doctors") df_doctors = Loaded rows.
Proof.
  destruct (@failed_second_load_leaves_doctors_loaded
              warehouse_refusing_locations source_small parse_decimal 7 3
              (snd (run_main warehouse_refusing_locations source_small
                      parse_decimal 7 3)))
    as [docs [n [H1 [H2 _]]]].
  - vm_compute. reflexivity.
  - exists docs, n. now split.
Defined.

Lemma distinct_npi_keep_every_row_witness :
  index (fst (tables_of (transform_data parse_decimal 7 sample_distinct))) =
  index (snd (tables_of (transform_data parse_decimal 7 sample_distinct))).
Proof.
  apply (@distinct_npi_keep_every_row parse_decimal 7 sample_distinct
           (fst (tables_of (transform_data parse_decimal 7 sample_distinct)))
           (snd (tables_of (transform_data parse_decimal 7 sample_distinct)))).
  - vm_compute. reflexivity.
  - intros r [<-|[<-|[]]]; all_strings.
  - cbn. repeat constructor; cbn; intuition discriminate.
Defined.
